(** * Nokshi storefront: a shallow embedding of [app.py] and [models.py]

    The Flask request handlers are embedded as functions over an explicit
    world (the relational store, the visitor's session and the list of store
    statements issued so far).  Text is modelled as ASCII [string]s, Python
    integers as [Z], the session cart as an insertion-ordered association
    list with Python's [dict] operations.  Everything the program takes from
    outside its own source (floating-point arithmetic, the builtin [int] and
    [float] parsers, werkzeug's password check, the clock) is an interface
    the handlers are parametric in.  An exception no handler catches ends
    the request in a 500: the [OverflowError] of an integer too large to
    multiply a float by or to be bound as a key, and the constraint
    violations the store answers an insert with (a slug or username held
    twice, a NaN in a column that must not be NULL). *)

From Stdlib Require Import ZArith List String Ascii Bool Lia DecimalString.
From Stdlib Require Import Sorted Permutation DecimalZ DecimalPos.
Import ListNotations.
Open Scope string_scope.
Open Scope Z_scope.

(** ** Python text operations (ASCII) *)

Module Str.

(** [str.lower] on one character. *)
Definition lower_char (c : ascii) : ascii :=
  let n := nat_of_ascii c in
  if (Nat.leb 65 n && Nat.leb n 90)%bool then ascii_of_nat (n + 32) else c.

(** [str.lower]. *)
Fixpoint lower (s : string) : string :=
  match s with
  | EmptyString => EmptyString
  | String c s' => String (lower_char c) (lower s')
  end.

(** [s.replace(old, new)] for a pattern [old] of one character, the only
    form [app.py] uses. *)
Fixpoint replace (old : ascii) (new : string) (s : string) : string :=
  match s with
  | EmptyString => EmptyString
  | String c s' =>
      if Ascii.eqb c old then new ++ replace old new s'
      else String c (replace old new s')
  end.

(** [str.isspace] on one ASCII character: tab, line feed, vertical tab,
    form feed, carriage return, the four separators 28..31 and space. *)
Definition isspace (c : ascii) : bool :=
  let n := nat_of_ascii c in
  ((Nat.leb 9 n && Nat.leb n 13) || (Nat.leb 28 n && Nat.leb n 32))%bool.

(** [str.lstrip()]. *)
Fixpoint lstrip (s : string) : string :=
  match s with
  | EmptyString => EmptyString
  | String c s' => if isspace c then lstrip s' else s
  end.

(** [str.rstrip()]. *)
Fixpoint rstrip (s : string) : string :=
  match s with
  | EmptyString => EmptyString
  | String c s' =>
      match rstrip s' with
      | EmptyString => if isspace c then EmptyString else String c EmptyString
      | r => String c r
      end
  end.

(** [str.strip()]. *)
Definition strip (s : string) : string := rstrip (lstrip s).

(** Truth value of a string: non-empty. *)
Definition truthy (s : string) : bool :=
  match s with EmptyString => false | String _ _ => true end.

(** [x or default] on strings. *)
Definition or_else (s default : string) : string :=
  if truthy s then s else default.

(** [str(n)] for an integer [n]. *)
Definition of_int (n : Z) : string := NilZero.string_of_int (Z.to_int n).

End Str.

(** ** [slugify] (app.py, lines 24-30) *)

Definition slugify (text : string) : string :=
  Str.replace "&" "and" (Str.replace "/" "-" (Str.replace " " "-" (Str.lower text))).

(** The slug rule as the specification words it: one pass over the text,
    each character lowercased, a space or a slash turned into a hyphen and
    an ampersand into the word [and]. *)
Definition slug_char (c : ascii) : string :=
  if Ascii.eqb c " " then "-"
  else if Ascii.eqb c "/" then "-"
  else if Ascii.eqb c "&" then "and"
  else String (Str.lower_char c) EmptyString.

Fixpoint slugify_spec (text : string) : string :=
  match text with
  | EmptyString => EmptyString
  | String c s => slug_char c ++ slugify_spec s
  end.

(** ** Python's [dict], insertion-ordered, with [str] keys *)

Module Dict.
Section Ops.
Context {V : Type}.

Definition t : Type := list (string * V).

(** [d.get(k)]: [None] when the key is absent. *)
Fixpoint get (k : string) (d : t) : option V :=
  match d with
  | [] => None
  | (k', v) :: d' => if String.eqb k k' then Some v else get k d'
  end.

(** [k in d]. *)
Definition mem (k : string) (d : t) : bool :=
  match get k d with Some _ => true | None => false end.

(** [d[k] = v]: an existing key keeps its place, a new one goes last. *)
Fixpoint set (k : string) (v : V) (d : t) : t :=
  match d with
  | [] => [(k, v)]
  | (k', v') :: d' =>
      if String.eqb k k' then (k', v) :: d' else (k', v') :: set k v d'
  end.

(** [del d[k]]. *)
Fixpoint del (k : string) (d : t) : t :=
  match d with
  | [] => []
  | (k', v') :: d' => if String.eqb k k' then d' else (k', v') :: del k d'
  end.

(** [list(d.keys())] and [d.values()]. *)
Definition keys (d : t) : list string := map fst d.
Definition values (d : t) : list V := map snd d.

(** Truth value of a dict: non-empty. *)
Definition truthy (d : t) : bool :=
  match d with [] => false | _ :: _ => true end.

(** A Python dict holds each key once. *)
Definition wf (d : t) : Prop := NoDup (keys d).
End Ops.
Arguments t : clear implicits.
End Dict.

(** ** What the program takes from outside its source *)

(** Floating-point numbers ([float]) with the operations the handlers
    apply to prices. *)
Class PyFloat : Type := {
  float : Type;
  (** [x * n] for a float [x] and an integer [n]: the integer is converted
      to a float first; [None] stands for the [OverflowError] of an integer
      too large for that. *)
  float_mul_int : float -> Z -> option float;
  (** The builtin [sum] over a sequence of floats. *)
  float_sum : list float -> float;
  (** [float(s)]; [None] stands for [ValueError]. *)
  float_of_str : string -> option float;
  (** [x <= 0]. *)
  float_le_0 : float -> bool;
  (** [x != x]: the float is NaN, which the store takes for NULL. *)
  float_isnan : float -> bool
}.

(** A naive UTC [datetime], as microseconds since the epoch. *)
Definition datetime : Type := Z.

(** A cart line item: the dict literal of [add_to_cart] (lines 103-109). *)
Module Item.
Record t `{PyFloat} : Type := mk {
  id : Z;
  name : string;
  price : float;
  size : string;
  qty : Z
}.

(** [item["qty"] = q]. *)
Definition set_qty `{PyFloat} (i : t) (q : Z) : t :=
  mk _ (id i) (name i) (price i) (size i) q.
End Item.

(** The session cart: composite key to line item. *)
Definition Cart `{PyFloat} : Type := Dict.t Item.t.

(** Library calls. *)
Class Externals `{PyFloat} : Type := {
  (** [int(s)]; [None] stands for [ValueError]. *)
  int_of_str : string -> option Z;
  (** werkzeug's [check_password_hash(pwhash, password)]. *)
  check_password_hash : string -> string -> bool;
  (** [int(dt.timestamp())]. *)
  timestamp : datetime -> Z;
  (** [str(cart)]. *)
  str_of_cart : Cart -> string
}.

(** ** The data model (models.py) *)

Module Product.
Record t `{PyFloat} : Type := mk {
  id : Z;
  name : string;
  slug : string;
  category : string;
  price : float;
  description : string;
  image_url : string;
  sizes : string;
  in_stock : bool;
  is_featured : bool
}.

(** [product.in_stock = b]. *)
Definition set_in_stock `{PyFloat} (p : t) (b : bool) : t :=
  mk _ (id p) (name p) (slug p) (category p) (price p) (description p)
     (image_url p) (sizes p) b (is_featured p).
End Product.

Module Order.
Record t `{PyFloat} : Type := mk {
  id : Z;
  customer_name : string;
  customer_email : string;
  customer_phone : string;
  address : string;
  items : string;
  total_price : float;
  status : string;
  created_at : datetime
}.

(** The column default of [status]. *)
Definition default_status : string := "Pending".
End Order.

Module AdminUser.
Record t : Type := mk {
  id : Z;
  username : string;
  password_hash : string
}.

(** [user.check_password(password)]. *)
Definition check_password `{Externals} (user : t) (password : string) : bool :=
  check_password_hash (password_hash user) password.
End AdminUser.

(** ** The world a request runs in *)

(** The relational store: one list of rows per table, oldest row first. *)
Module Db.
Record t `{PyFloat} : Type := mk {
  products : list Product.t;
  orders : list Order.t;
  admin_users : list AdminUser.t
}.
End Db.

(** The visitor's session: [session["cart"]], [session["admin_id"]] (each
    possibly absent) and the [(category, message)] pairs flashed so far,
    oldest first (reading them back is left to the templates). *)
Module Session.
Record t `{PyFloat} : Type := mk {
  cart : option Cart;
  admin_id : option Z;
  flashes : list (string * string)
}.

(** A session before its first request. *)
Definition empty `{PyFloat} : t := mk _ None None [].
End Session.

Inductive Table : Type := ProductT | OrderT | AdminUserT.

(** A statement sent to the store. *)
Inductive Stmt : Type :=
| SELECT (table : Table)
| INSERT (table : Table)
| UPDATE (table : Table).

Module World.
Record t `{PyFloat} : Type := mk {
  db : Db.t;
  session : Session.t;
  (** the statements issued so far, oldest first *)
  stmts : list Stmt
}.
End World.

Inductive Method : Type := GET | POST.

(** What a handler reads of the request: the method, [request.args],
    [request.form] and the clock ([datetime.utcnow()]). *)
Module Request.
Record t : Type := mk {
  method : Method;
  args : list (string * string);
  form : list (string * string);
  utcnow : datetime
}.
End Request.

(** [d.get(k)] on [request.form] or [request.args]: the first value. *)
Fixpoint multidict_get (d : list (string * string)) (k : string) : option string :=
  match d with
  | [] => None
  | (k', v) :: d' => if String.eqb k k' then Some v else multidict_get d' k
  end.

(** [request.form.get(k, default)]. *)
Definition form_get (request : Request.t) (k default : string) : string :=
  match multidict_get (Request.form request) k with
  | Some v => v
  | None => default
  end.

(** [request.form.get(k, default).strip()]. *)
Definition form_strip (request : Request.t) (k default : string) : string :=
  Str.strip (form_get request k default).

(** An integer the store can take as a key: a signed one of 64 bits.  The
    driver raises [OverflowError] on any other. *)
Definition sqlite_integer (n : Z) : bool :=
  ((- 2 ^ 63 <=? n) && (n <? 2 ^ 63))%bool.

(** The primary key of the next inserted row. *)
Definition next_id (ids : list Z) : Z := 1 + fold_right Z.max 0 ids.

(** [ORDER BY key DESC]: insertion into a descending list, then the sort. *)
Fixpoint insert_desc {A : Type} (key : A -> Z) (x : A) (l : list A) : list A :=
  match l with
  | [] => [x]
  | y :: l' => if key y <? key x then x :: l else y :: insert_desc key x l'
  end.

Definition order_by_desc {A : Type} (key : A -> Z) (l : list A) : list A :=
  fold_right (insert_desc key) [] l.

(** [all([a, b, ...])] on strings. *)
Definition all (l : list string) : bool := forallb Str.truthy l.

(** The composite cart key [f"{product_id}-{size or 'nosize'}"]. *)
Definition cart_key (product_id : Z) (size : string) : string :=
  Str.of_int product_id ++ "-" ++ Str.or_else size "nosize".

(** ** Handlers *)

Section App.
Context `{PF : PyFloat} `{EX : !Externals}.

(** The endpoints [url_for] is called on. *)
Inductive Endpoint : Type :=
| products_view_url
| cart_url
| checkout_url
| order_success_url (order_id : Z)
| admin_login_url
| admin_dashboard_url
| admin_products_url.

(** A template with the values handed to it. *)
Inductive Template : Type :=
| home_html (products : list Product.t)
| products_html (products : list Product.t) (categories : list string)
    (selected_category : option string)
| product_detail_html (product : Product.t)
| cart_html (cart : Cart) (total : float)
| checkout_html (cart : Cart) (total : float)
| order_success_html (order : Order.t)
| admin_login_html
| admin_dashboard_html (total_products total_orders pending_orders : Z)
    (recent_orders : list Order.t)
| admin_products_html (products : list Product.t).

(** What a request is answered with; [abort] is an error page (404 from
    [get_or_404], 405 from the router, 500 from an unhandled exception). *)
Inductive Response : Type :=
| redirect (url : Endpoint)
| render_template (page : Template)
| abort (code : Z).

(** A computation of a handler: it reads and writes the world and either
    yields a value or raises with an HTTP status. *)
Definition M (A : Type) : Type := World.t -> (A + Z) * World.t.

Definition ret {A : Type} (a : A) : M A := fun w => (inl a, w).

Definition bind {A B : Type} (c : M A) (k : A -> M B) : M B :=
  fun w =>
    match c w with
    | (inl a, w') => k a w'
    | (inr code, w') => (inr code, w')
    end.

Definition raise {A : Type} (code : Z) : M A := fun w => (inr code, w).

(** A value whose computation may end in an exception no handler catches:
    the request is answered with a 500. *)
Definition uncaught {A : Type} (x : option A) : M A :=
  match x with
  | Some a => ret a
  | None => raise 500
  end.

Notation "x <- c1 ;; c2" := (bind c1 (fun x => c2))
  (at level 61, c1 at next level, right associativity).
Notation "c1 ;; c2" := (bind c1 (fun _ => c2))
  (at level 61, right associativity).

(** The response of a handler run in a world. *)
Definition run (h : M Response) (w : World.t) : Response * World.t :=
  match h w with
  | (inl r, w') => (r, w')
  | (inr code, w') => (abort code, w')
  end.

(** *** Session primitives *)

Definition read_session : M Session.t := fun w => (inl (World.session w), w).

Definition write_session (s : Session.t) : M unit :=
  fun w => (inl tt, World.mk _ (World.db w) s (World.stmts w)).

(** [session["cart"] = cart]. *)
Definition session_set_cart (cart : Cart) : M unit :=
  s <- read_session ;;
  write_session (Session.mk _ (Some cart) (Session.admin_id s) (Session.flashes s)).

(** [session["admin_id"] = uid]. *)
Definition session_set_admin_id (uid : Z) : M unit :=
  s <- read_session ;;
  write_session (Session.mk _ (Session.cart s) (Some uid) (Session.flashes s)).

(** [session.pop("admin_id", None)]. *)
Definition session_pop_admin_id : M unit :=
  s <- read_session ;;
  write_session (Session.mk _ (Session.cart s) None (Session.flashes s)).

(** [flash(message, category)]. *)
Definition flash (message category : string) : M unit :=
  s <- read_session ;;
  write_session (Session.mk _ (Session.cart s) (Session.admin_id s)
                   (Session.flashes s ++ [(category, message)])).

(** [get_cart] (lines 32-33): [session.get("cart", {})]. *)
Definition get_cart : M Cart :=
  s <- read_session ;;
  ret (match Session.cart s with Some cart => cart | None => [] end).

(** [save_cart] (lines 35-37). *)
Definition save_cart (cart : Cart) : M unit := session_set_cart cart.

(** [is_admin] (lines 39-40): [bool(session.get("admin_id"))]. *)
Definition is_admin : M bool :=
  s <- read_session ;;
  ret (match Session.admin_id s with
       | Some uid => negb (uid =? 0)
       | None => false
       end).

(** *** Store primitives *)

(** A query: the statement is recorded and the rows are read. *)
Definition select (table : Table) : M Db.t :=
  fun w => (inl (World.db w),
            World.mk _ (World.db w) (World.session w) (World.stmts w ++ [SELECT table])).

Definition write_db (st : Stmt) (d : Db.t) : M unit :=
  fun w => (inl tt, World.mk _ d (World.session w) (World.stmts w ++ [st])).

(** A statement the store refuses: it is recorded, nothing is written and
    the exception surfaces as a 500. *)
Definition refused {A : Type} (st : Stmt) : M A :=
  fun w => (inr 500, World.mk _ (World.db w) (World.session w) (World.stmts w ++ [st])).

Definition find_product (f : Product.t -> bool) (d : Db.t) : option Product.t :=
  find f (Db.products d).

(** [Product.query.get_or_404(product_id)].  An id that is no
    [sqlite_integer] is the key of no row the store holds, and binding it
    raises [OverflowError]: a 500 in place of the 404. *)
Definition Product_get_or_404 (product_id : Z) : M Product.t :=
  d <- select ProductT ;;
  match find_product (fun p => Product.id p =? product_id) d with
  | Some p => ret p
  | None => if sqlite_integer product_id then raise 404 else raise 500
  end.

(** [Product.query.filter_by(slug=slug).first()]. *)
Definition Product_first_by_slug (slug : string) : M (option Product.t) :=
  d <- select ProductT ;;
  ret (find_product (fun p => String.eqb (Product.slug p) slug) d).

(** [Product.query.filter_by(...).limit(n).all()] for a row filter. *)
Definition Product_filter_limit (f : Product.t -> bool) (n : nat) : M (list Product.t) :=
  d <- select ProductT ;;
  ret (firstn n (filter f (Db.products d))).

(** [Product.query.filter_by(...).order_by(Product.id.desc()).all()]. *)
Definition Product_filter_by_id_desc (f : Product.t -> bool) : M (list Product.t) :=
  d <- select ProductT ;;
  ret (order_by_desc Product.id (filter f (Db.products d))).

(** The distinct categories of the in-stock products. *)
Definition Product_categories_in_stock : M (list string) :=
  d <- select ProductT ;;
  ret (nodup string_dec (map Product.category (filter Product.in_stock (Db.products d)))).

(** [Product.query.count()]. *)
Definition Product_count : M Z :=
  d <- select ProductT ;;
  ret (Z.of_nat (List.length (Db.products d))).

(** [db.session.add(p); db.session.commit()] for a new product: the row
    gets the next id; the store refuses a slug it already holds
    ([unique=True] in models.py) and a price that is NaN ([nullable=False],
    NaN being stored as NULL). *)
Definition Product_add_commit (name slug category : string) (price : float)
    (description image_url sizes : string) (is_featured in_stock : bool) : M unit :=
  fun w =>
    let d := World.db w in
    if (existsb (fun p => String.eqb (Product.slug p) slug) (Db.products d)
        || float_isnan price)%bool
    then refused (INSERT ProductT) w
    else
      let p := Product.mk _ (next_id (map Product.id (Db.products d))) name slug
                 category price description image_url sizes in_stock is_featured in
      write_db (INSERT ProductT)
        (Db.mk _ (Db.products d ++ [p]) (Db.orders d) (Db.admin_users d)) w.

(** [product.in_stock = b; db.session.commit()]. *)
Definition Product_set_in_stock_commit (product : Product.t) (b : bool) : M unit :=
  fun w =>
    let d := World.db w in
    write_db (UPDATE ProductT)
      (Db.mk _ (map (fun p => if Product.id p =? Product.id product
                              then Product.set_in_stock p b else p) (Db.products d))
         (Db.orders d) (Db.admin_users d)) w.

(** [Order.query.get_or_404(order_id)]; an id that is no
    [sqlite_integer] is answered as by [Product_get_or_404]. *)
Definition Order_get_or_404 (order_id : Z) : M Order.t :=
  d <- select OrderT ;;
  match find (fun o => Order.id o =? order_id) (Db.orders d) with
  | Some o => ret o
  | None => if sqlite_integer order_id then raise 404 else raise 500
  end.

(** [Order.query.count()] and [Order.query.filter_by(status=s).count()]. *)
Definition Order_count : M Z :=
  d <- select OrderT ;;
  ret (Z.of_nat (List.length (Db.orders d))).

Definition Order_count_by_status (s : string) : M Z :=
  d <- select OrderT ;;
  ret (Z.of_nat (List.length (filter (fun o => String.eqb (Order.status o) s) (Db.orders d)))).

(** [Order.query.order_by(Order.created_at.desc()).limit(n).all()]. *)
Definition Order_recent (n : nat) : M (list Order.t) :=
  d <- select OrderT ;;
  ret (firstn n (order_by_desc Order.created_at (Db.orders d))).

(** [db.session.add(order); db.session.commit()] for an order built
    without [status]: the row gets the next id and the column default; the
    store refuses a total that is NaN ([nullable=False], NaN being stored
    as NULL). *)
Definition Order_add_commit (customer_name customer_email customer_phone address
    items : string) (total_price : float) (created_at : datetime) : M Order.t :=
  fun w =>
    let d := World.db w in
    if float_isnan total_price then refused (INSERT OrderT) w
    else
      let o := Order.mk _ (next_id (map Order.id (Db.orders d))) customer_name
                 customer_email customer_phone address items total_price
                 Order.default_status created_at in
      bind (write_db (INSERT OrderT)
              (Db.mk _ (Db.products d) (Db.orders d ++ [o]) (Db.admin_users d)))
           (fun _ => ret o) w.

(** [AdminUser.query.filter_by(username=username).first()]. *)
Definition AdminUser_first_by_username (username : string) : M (option AdminUser.t) :=
  d <- select AdminUserT ;;
  ret (find (fun u => String.eqb (AdminUser.username u) username) (Db.admin_users d)).

(** *** Public routes (lines 44-77) *)

Definition home (request : Request.t) : M Response :=
  featured <- Product_filter_limit
                (fun p => Product.is_featured p && Product.in_stock p)%bool 8 ;;
  featured <- match featured with
              | [] => Product_filter_limit Product.in_stock 8
              | _ :: _ => ret featured
              end ;;
  ret (render_template (home_html featured)).

Definition products_view (request : Request.t) : M Response :=
  let category := multidict_get (Request.args request) "category" in
  let q := match category with
           | Some c =>
               if Str.truthy c
               then fun p => (Product.in_stock p && String.eqb (Product.category p) c)%bool
               else Product.in_stock
           | None => Product.in_stock
           end in
  products <- Product_filter_by_id_desc q ;;
  categories <- Product_categories_in_stock ;;
  ret (render_template (products_html products categories category)).

Definition product_detail (slug : string) (request : Request.t) : M Response :=
  d <- select ProductT ;;
  match find_product
          (fun p => String.eqb (Product.slug p) slug && Product.in_stock p)%bool d with
  | Some product => ret (render_template (product_detail_html product))
  | None => raise 404
  end.

(** *** Cart (lines 81-138) *)

(** The quantity [add_to_cart] takes from the form (lines 89-95). *)
Definition add_qty (request : Request.t) : Z :=
  let qty := form_get request "qty" "1" in
  let qty := match int_of_str qty with
             | Some n => n
             | None => 1
             end in
  if qty <? 1 then 1 else qty.

(** The size [add_to_cart] takes from the form (line 88):
    [(request.form.get("size") or "").strip()]. *)
Definition add_size (request : Request.t) : string :=
  Str.strip (match multidict_get (Request.form request) "size" with
             | Some s => Str.or_else s ""
             | None => ""
             end).

(** [float(product.price)] is the price itself, the column being a float. *)
Definition add_to_cart (product_id : Z) (request : Request.t) : M Response :=
  product <- Product_get_or_404 product_id ;;
  if negb (Product.in_stock product) then
    flash "This item is out of stock." "warning" ;;
    ret (redirect products_view_url)
  else
    let size := add_size request in
    let qty := add_qty request in
    cart <- get_cart ;;
    let key := cart_key product_id size in
    let cart :=
      match Dict.get key cart with
      | Some item => Dict.set key (Item.set_qty item (Item.qty item + qty)) cart
      | None =>
          Dict.set key
            (Item.mk _ (Product.id product) (Product.name product)
               (Product.price product) size qty)
            cart
      end in
    save_cart cart ;;
    flash "Added to cart." "success" ;;
    ret (redirect cart_url).

(** The products [i["price"] * i["qty"]] of the line items, formed one
    after the other; [None] stands for the [OverflowError] of the first
    that cannot be formed. *)
Fixpoint line_totals (items : list Item.t) : option (list float) :=
  match items with
  | [] => Some []
  | i :: items' =>
      match float_mul_int (Item.price i) (Item.qty i) with
      | Some x => option_map (cons x) (line_totals items')
      | None => None
      end
  end.

(** [sum(i["price"] * i["qty"] for i in cart.values())]. *)
Definition cart_total (cart : Cart) : option float :=
  option_map float_sum (line_totals (Dict.values cart)).

Definition cart (request : Request.t) : M Response :=
  cart <- get_cart ;;
  total <- uncaught (cart_total cart) ;;
  ret (render_template (cart_html cart total)).

(** The quantity [update_cart] settles on for the line item [item] under
    [key] (lines 125-129). *)
Definition update_qty (request : Request.t) (key : string) (item : Item.t) : Z :=
  let qty_raw := form_get request ("qty_" ++ key) (Str.of_int (Item.qty item)) in
  match int_of_str qty_raw with
  | Some n => n
  | None => Item.qty item
  end.

(** One turn of the loop of [update_cart] (lines 125-134); [None] stands
    for the [KeyError] of [cart[key]]. *)
Definition update_cart_item (request : Request.t) (cart : Cart) (key : string)
    : option Cart :=
  match Dict.get key cart with
  | None => None
  | Some item =>
      let qty := update_qty request key item in
      if qty <=? 0 then Some (Dict.del key cart)
      else Some (Dict.set key (Item.set_qty item qty) cart)
  end.

(** The loop of [update_cart] over [list(cart.keys())]. *)
Fixpoint update_cart_loop (request : Request.t) (keys : list string) (cart : Cart)
    : M Cart :=
  match keys with
  | [] => ret cart
  | key :: keys' =>
      match update_cart_item request cart key with
      | Some cart' => update_cart_loop request keys' cart'
      | None => raise 500
      end
  end.

Definition update_cart (request : Request.t) : M Response :=
  cart <- get_cart ;;
  cart <- update_cart_loop request (Dict.keys cart) cart ;;
  save_cart cart ;;
  flash "Cart updated." "info" ;;
  ret (redirect cart_url).

(** *** Checkout (lines 142-182) *)

Definition checkout (request : Request.t) : M Response :=
  cart <- get_cart ;;
  if negb (Dict.truthy cart) then
    flash "Your cart is empty." "warning" ;;
    ret (redirect products_view_url)
  else
    total <- uncaught (cart_total cart) ;;
    match Request.method request with
    | POST =>
        let name := form_strip request "name" "" in
        let email := form_strip request "email" "" in
        let phone := form_strip request "phone" "" in
        let address := form_strip request "address" "" in
        if negb (all [name; email; phone; address]) then
          flash "Please fill in all fields." "danger" ;;
          ret (redirect checkout_url)
        else
          order <- Order_add_commit name email phone address (str_of_cart cart)
                     total (Request.utcnow request) ;;
          session_set_cart [] ;;
          flash "Order placed! We will contact you to confirm." "success" ;;
          ret (redirect (order_success_url (Order.id order)))
    | GET => ret (render_template (checkout_html cart total))
    end.

Definition order_success (order_id : Z) (request : Request.t) : M Response :=
  order <- Order_get_or_404 order_id ;;
  ret (render_template (order_success_html order)).

(** *** Admin authentication (lines 186-206) *)

Definition admin_login (request : Request.t) : M Response :=
  match Request.method request with
  | POST =>
      let username := form_strip request "username" "" in
      let password := form_strip request "password" "" in
      user <- AdminUser_first_by_username username ;;
      let invalid := flash "Invalid credentials." "danger" ;;
                     ret (render_template admin_login_html) in
      match user with
      | Some user =>
          if AdminUser.check_password user password then
            session_set_admin_id (AdminUser.id user) ;;
            flash "Welcome, admin." "success" ;;
            ret (redirect admin_dashboard_url)
          else invalid
      | None => invalid
      end
  | GET => ret (render_template admin_login_html)
  end.

Definition admin_logout (request : Request.t) : M Response :=
  session_pop_admin_id ;;
  flash "Logged out." "info" ;;
  ret (redirect admin_login_url).

(** *** Admin views (lines 210-289) *)

Definition require_admin_redirect : M (option Response) :=
  a <- is_admin ;;
  if negb a then ret (Some (redirect admin_login_url)) else ret None.

Definition admin_dashboard (request : Request.t) : M Response :=
  r <- require_admin_redirect ;;
  match r with
  | Some r => ret r
  | None =>
      total_products <- Product_count ;;
      total_orders <- Order_count ;;
      pending_orders <- Order_count_by_status "Pending" ;;
      recent_orders <- Order_recent 5 ;;
      ret (render_template
             (admin_dashboard_html total_products total_orders pending_orders
                recent_orders))
  end.

(** The POST branch of [admin_products] (lines 241-274).  A [price] that
    does not parse is the integer 0, which fails [price <= 0]. *)
Definition admin_products_post (request : Request.t) : M unit :=
  let name := form_strip request "name" "" in
  let category := form_strip request "category" "" in
  let price_raw := form_strip request "price" "0" in
  let description := form_strip request "description" "" in
  let image_url := form_strip request "image_url" "" in
  let sizes := form_strip request "sizes" "" in
  let is_featured := match multidict_get (Request.form request) "is_featured" with
                     | Some v => Str.truthy v
                     | None => false
                     end in
  let invalid := flash "Name, category & valid price required." "danger" in
  match float_of_str price_raw with
  | None => invalid
  | Some price =>
      if (negb (Str.truthy name) || negb (Str.truthy category) || float_le_0 price)%bool
      then invalid
      else
        let slug := slugify name in
        existing <- Product_first_by_slug slug ;;
        let slug := match existing with
                    | Some _ =>
                        slug ++ "-" ++ Str.of_int (timestamp (Request.utcnow request))
                    | None => slug
                    end in
        Product_add_commit name slug category price description image_url sizes
          is_featured true ;;
        flash "Product added." "success"
  end.

Definition admin_products (request : Request.t) : M Response :=
  r <- require_admin_redirect ;;
  match r with
  | Some r => ret r
  | None =>
      match Request.method request with
      | POST => admin_products_post request
      | GET => ret tt
      end ;;
      products <- Product_filter_by_id_desc (fun _ => true) ;;
      ret (render_template (admin_products_html products))
  end.

Definition admin_toggle_stock (product_id : Z) (request : Request.t) : M Response :=
  r <- require_admin_redirect ;;
  match r with
  | Some r => ret r
  | None =>
      product <- Product_get_or_404 product_id ;;
      Product_set_in_stock_commit product (negb (Product.in_stock product)) ;;
      flash "Stock status updated." "info" ;;
      ret (redirect admin_products_url)
  end.

(** *** The routing table *)

Inductive Route : Type :=
| home_route
| products_view_route
| product_detail_route (slug : string)
| add_to_cart_route (product_id : Z)
| cart_route
| update_cart_route
| checkout_route
| order_success_route (order_id : Z)
| admin_login_route
| admin_logout_route
| admin_dashboard_route
| admin_products_route
| admin_toggle_stock_route (product_id : Z).

(** The methods of each [@app.route]. *)
Definition allows (r : Route) (m : Method) : bool :=
  match r, m with
  | add_to_cart_route _, GET | update_cart_route, GET => false
  | add_to_cart_route _, POST | update_cart_route, POST => true
  | checkout_route, _ | admin_login_route, _ | admin_products_route, _ => true
  | _, GET => true
  | _, POST => false
  end.

Definition view (r : Route) : Request.t -> M Response :=
  match r with
  | home_route => home
  | products_view_route => products_view
  | product_detail_route slug => product_detail slug
  | add_to_cart_route product_id => add_to_cart product_id
  | cart_route => cart
  | update_cart_route => update_cart
  | checkout_route => checkout
  | order_success_route order_id => order_success order_id
  | admin_login_route => admin_login
  | admin_logout_route => admin_logout
  | admin_dashboard_route => admin_dashboard
  | admin_products_route => admin_products
  | admin_toggle_stock_route product_id => admin_toggle_stock product_id
  end.

(** One request served: the router refuses a method the route does not
    list, otherwise the view runs. *)
Definition serve (r : Route) (request : Request.t) (w : World.t)
    : Response * World.t :=
  if allows r (Request.method request) then run (view r request) w
  else (abort 405, w).

(** A visit: requests served one after the other. *)
Fixpoint serve_all (rs : list (Route * Request.t)) (w : World.t) : World.t :=
  match rs with
  | [] => w
  | (r, request) :: rs' => serve_all rs' (snd (serve r request w))
  end.

(** The cart a world's session holds ([get_cart] as a reading). *)
Definition cart_of (w : World.t) : Cart :=
  match Session.cart (World.session w) with
  | Some c => c
  | None => []
  end.

(** The world once [flash(message, category)] has run in it. *)
Definition flashed (w : World.t) (category message : string) : World.t :=
  let s := World.session w in
  World.mk _ (World.db w)
    (Session.mk _ (Session.cart s) (Session.admin_id s)
       (Session.flashes s ++ [(category, message)]))
    (World.stmts w).

(** The world once a statement has been sent to the store. *)
Definition queried (w : World.t) (st : Stmt) : World.t :=
  World.mk _ (World.db w) (World.session w) (World.stmts w ++ [st]).

(** The admin-area routes. *)
Definition admin_area (r : Route) : bool :=
  match r with
  | admin_dashboard_route | admin_products_route | admin_toggle_stock_route _ => true
  | _ => false
  end.

(** [update_cart] as the specification words it: one pass over the line
    items, each one dropped when its settled quantity is at most 0 and
    otherwise kept in place with that quantity. *)
Fixpoint update_cart_spec (request : Request.t) (cart : Cart) : Cart :=
  match cart with
  | [] => []
  | (key, item) :: rest =>
      let qty := update_qty request key item in
      if qty <=? 0 then update_cart_spec request rest
      else (key, Item.set_qty item qty) :: update_cart_spec request rest
  end.



(** A computation that leaves [session["cart"]] as it finds it. *)
Definition keeps_cart {A : Type} (c : M A) : Prop :=
  forall w, Session.cart (World.session (snd (c w))) = Session.cart (World.session w).

End App.

(** ** Start-up and seeding (app.py, lines 12-20 and 294-322) *)

(** What seeding takes from outside the source: werkzeug's
    [generate_password_hash] and the float literals [65.0] and [55.0]. *)
Class Seeding `{PyFloat} : Type := {
  generate_password_hash : string -> string;
  float_65 : float;
  float_55 : float;
  (** Both literals are numbers. *)
  float_65_number : float_isnan float_65 = false;
  float_55_number : float_isnan float_55 = false
}.

Section Startup.
Context `{PF : PyFloat} `{EX : !Externals} `{SD : !Seeding}.

(** [user.set_password(password)] on a user being built (models.py,
    lines 37-38). *)
Definition set_password (user : AdminUser.t) (password : string) : AdminUser.t :=
  AdminUser.mk (AdminUser.id user) (AdminUser.username user)
    (generate_password_hash password).

(** [db.session.add(user); db.session.commit()] for a new administrator:
    the row gets the next id; the store refuses a username it already
    holds ([unique=True] in models.py). *)
Definition AdminUser_add_commit (user : AdminUser.t) : M unit :=
  fun w =>
    let d := World.db w in
    if existsb (fun u => String.eqb (AdminUser.username u) (AdminUser.username user))
         (Db.admin_users d)
    then refused (INSERT AdminUserT) w
    else
      let u := AdminUser.mk (next_id (map AdminUser.id (Db.admin_users d)))
                 (AdminUser.username user) (AdminUser.password_hash user) in
      write_db (INSERT AdminUserT)
        (Db.mk _ (Db.products d) (Db.orders d) (Db.admin_users d ++ [u])) w.

(** [ensure_default_admin] (lines 294-299); the id of the user being
    built is not read. *)
Definition ensure_default_admin : M unit :=
  bind (AdminUser_first_by_username "admin") (fun existing =>
  match existing with
  | Some _ => ret tt
  | None =>
      let admin := AdminUser.mk 0 "admin" "" in
      let admin := set_password admin "nokshi123" in
      AdminUser_add_commit admin
  end).

(** The rows of a pending [db.session.add] sequence inserted one after
    the other, each under the next id; [None] when the store refuses one
    for its slug or for a NaN price. *)
Fixpoint insert_products (rows table : list Product.t) : option (list Product.t) :=
  match rows with
  | [] => Some table
  | r :: rows' =>
      if (existsb (fun p => String.eqb (Product.slug p) (Product.slug r)) table
          || float_isnan (Product.price r))%bool
      then None
      else
        insert_products rows'
          (table ++ [Product.mk _ (next_id (map Product.id table)) (Product.name r)
                       (Product.slug r) (Product.category r) (Product.price r)
                       (Product.description r) (Product.image_url r) (Product.sizes r)
                       (Product.in_stock r) (Product.is_featured r)])
  end.

(** Several [db.session.add(p)] and one [db.session.commit()]: all rows
    are written or none is. *)
Definition Product_add_all_commit (rows : list Product.t) : M unit :=
  fun w =>
    let d := World.db w in
    match insert_products rows (Db.products d) with
    | Some table =>
        (inl tt,
         World.mk _ (Db.mk _ table (Db.orders d) (Db.admin_users d)) (World.session w)
           (World.stmts w ++ map (fun _ => INSERT ProductT) rows))
    | None => refused (INSERT ProductT) w
    end.

(** The list [demo] of [ensure_sample_products]. *)
Definition demo : list (string * string * float) :=
  [("Nokshi Handloom Saree", "Saree", float_65);
   ("Embroidered Salwar Kameez", "Salwar", float_55)].

(** The product the loop of [ensure_sample_products] builds from one
    entry of [demo] (lines 309-320); its id is not read. *)
Definition sample_product (entry : string * string * float) : Product.t :=
  let '(name, cat, price) := entry in
  let slug := Str.replace " " "-" (Str.lower name) in
  Product.mk _ 0 name slug cat price
    ("Beautiful " ++ Str.lower cat ++ " from Nokshi.")
    "/static/images/placeholder.jpg"
    (if String.eqb cat "Salwar" then "S,M,L,XL" else "")
    true true.

(** [ensure_sample_products] (lines 302-322). *)
Definition ensure_sample_products : M unit :=
  bind Product_count (fun n =>
  if n =? 0 then Product_add_all_commit (map sample_product demo)
  else ret tt).

(** What [create_app] runs before the first request (lines 17-20);
    [db.create_all()] writes no row. *)
Definition startup : M unit :=
  bind ensure_default_admin (fun _ => ensure_sample_products).

End Startup.

(** ** Readings used to state properties *)

Section Readings.
Context `{PF : PyFloat} `{EX : !Externals}.

(** A computation that leaves a reading [f] of the world as it finds it. *)
Definition keeps {A X : Type} (f : World.t -> X) (c : M A) : Prop :=
  forall w, f (snd (c w)) = f w.

(** [is_admin] as a reading of a world. *)
Definition admin_of (w : World.t) : bool :=
  match Session.admin_id (World.session w) with
  | Some uid => negb (uid =? 0)
  | None => false
  end.

(** The stock flag of the rows with a given id set to [b]. *)
Definition with_in_stock (product_id : Z) (b : bool) (table : list Product.t)
    : list Product.t :=
  map (fun p => if Product.id p =? product_id then Product.set_in_stock p b else p) table.

(** The ways one request may change the store: not at all; one order
    appended under a fresh id with status "Pending"; and, for an
    administrator only, one in-stock product appended under a fresh id and
    a slug not yet held, or the stock flag of one product id flipped. *)
Inductive db_step (admin : bool) (d : Db.t) : Db.t -> Prop :=
| db_same : db_step admin d d
| db_order (o : Order.t) :
    Order.id o = next_id (map Order.id (Db.orders d)) ->
    Order.status o = "Pending" ->
    db_step admin d (Db.mk _ (Db.products d) (Db.orders d ++ [o]) (Db.admin_users d))
| db_product (p : Product.t) :
    admin = true ->
    Product.id p = next_id (map Product.id (Db.products d)) ->
    ~ In (Product.slug p) (map Product.slug (Db.products d)) ->
    Product.in_stock p = true ->
    db_step admin d (Db.mk _ (Db.products d ++ [p]) (Db.orders d) (Db.admin_users d))
| db_toggle (product : Product.t) :
    admin = true ->
    In product (Db.products d) ->
    db_step admin d
      (Db.mk _ (with_in_stock (Product.id product) (negb (Product.in_stock product))
                  (Db.products d))
         (Db.orders d) (Db.admin_users d)).

(** Primary keys and slugs are held once. *)
Definition store_inv (d : Db.t) : Prop :=
  NoDup (map Product.id (Db.products d)) /\
  NoDup (map Product.slug (Db.products d)) /\
  NoDup (map Order.id (Db.orders d)).

(** A list of rows in descending order of a key. *)
Definition descending {A : Type} (key : A -> Z) (l : list A) : Prop :=
  StronglySorted (fun x y => key y <= key x) l.

End Readings.

(** ** An interpretation to run the handlers on

    Prices are whole numbers of the smallest currency unit (none of them
    NaN), an integer converts to a float when it rounds to less than
    2^1024, numerals are plain decimal ones, and a password hash is the
    password behind a fixed prefix. *)

Module Demo.

(** [int(s)] on a decimal numeral with an optional sign and surrounding
    blanks. *)
Definition parse_int (s : string) : option Z :=
  match Str.strip s with
  | String "+" r => option_map Z.of_uint (NilZero.uint_of_string r)
  | r => option_map Z.of_int (NilZero.int_of_string r)
  end.

(** [float(n)] succeeds on an integer [n]: its magnitude is below
    2^1024 - 2^970, the least that rounds up to 2^1024. *)
Definition converts (n : Z) : bool := Z.abs n <? 2 ^ 1024 - 2 ^ 970.

Definition PF : PyFloat := {|
  float := Z;
  float_mul_int := fun x n => if converts n then Some (x * n) else None;
  float_sum := fun xs => fold_left Z.add xs 0;
  float_of_str := parse_int;
  float_le_0 := fun x => x <=? 0;
  float_isnan := fun _ => false
|}.

Definition EX : @Externals PF := {|
  int_of_str := parse_int;
  check_password_hash := fun pwhash password => String.eqb pwhash ("plain$" ++ password);
  timestamp := fun dt => dt / 1000000;
  str_of_cart := fun c => String.concat "," (Dict.keys c)
|}.

(** The seeding literals, and a hash that [check_password_hash] accepts. *)
Definition SD : @Seeding PF := {|
  generate_password_hash := fun password => "plain$" ++ password;
  float_65 := 65 : @float PF;
  float_55 := 55 : @float PF;
  float_65_number := eq_refl;
  float_55_number := eq_refl
|}.

(** A catalogue of three products, the last one out of stock. *)
Definition kameez : @Product.t PF :=
  Product.mk PF 5 "Embroidered Salwar Kameez" "embroidered-salwar-kameez" "Salwar" 55
    "Beautiful salwar from Nokshi." "/static/images/placeholder.jpg" "S,M,L,XL"
    true true.

Definition saree : @Product.t PF :=
  Product.mk PF 7 "Nokshi Handloom Saree" "nokshi-handloom-saree" "Saree" 65
    "Beautiful saree from Nokshi." "/static/images/placeholder.jpg" "" true true.

Definition shawl : @Product.t PF :=
  Product.mk PF 9 "Kantha Shawl" "kantha-shawl" "Shawl" 40
    "Beautiful shawl from Nokshi." "/static/images/placeholder.jpg" "" false false.

Definition admin : AdminUser.t := AdminUser.mk 1 "admin" "plain$nokshi123".

Definition db0 : @Db.t PF := Db.mk PF [kameez; saree; shawl] [] [admin].

(** A fresh visitor in front of that store. *)
Definition w0 : @World.t PF := World.mk PF db0 Session.empty [].

(** A POST carrying the given form at the given time, and a plain GET. *)
Definition post (form : list (string * string)) (now : datetime) : Request.t :=
  Request.mk POST [] form now.

Definition get : Request.t := Request.mk GET [] [] 0.

(** The administrator logging in, and the add-product form filled in for
    a "Silk Saree" at a given time. *)
Definition login : Request.t :=
  post [("username", "admin"); ("password", "nokshi123")] 0.

Definition add_silk_saree (now : datetime) : Request.t :=
  post [("name", "Silk Saree"); ("category", "Saree"); ("price", "65")] now.

(** A visitor whose cart was filled before the kameez got its present
    name and price. *)
Definition cart0 : @Cart PF :=
  [("7-nosize", Item.mk PF 7 "Nokshi Handloom Saree" 65 "" 2);
   ("5-M", Item.mk PF 5 "Salwar Kameez" 50 "M" 1)].

Definition w_cart : @World.t PF :=
  World.mk PF db0 (Session.mk PF (Some cart0) None []) [].

(** A checkout form filled in, one with the e-mail left blank, a repeated
    add of the kameez in size M, and cart updates. *)
Definition checkout_form (email : string) : Request.t :=
  post [("name", " Rahima Begum "); ("email", email); ("phone", "01700000000");
        ("address", "12 Lake Road, Dhaka")] 1700000000000000.

Definition add_kameez (qty : string) : Request.t :=
  post [("size", " M "); ("qty", qty)] 0.

Definition update_form (form : list (string * string)) : Request.t := post form 0.

(** That store with the administrator logged in. *)
Definition w_admin : @World.t PF :=
  World.mk PF db0 (Session.mk PF None (Some 1) []) [].

(** A quantity field of 401 digits, a one and 400 zeros, and the fresh
    visitor after adding the saree in that quantity. *)
Fixpoint zeros (n : nat) : string :=
  match n with
  | O => EmptyString
  | S n' => String "0" (zeros n')
  end.

Definition huge_qty : string := String "1" (zeros 400).

Definition w_huge : @World.t PF :=
  snd (@serve PF EX (add_to_cart_route 7) (post [("qty", huge_qty)] 0) w0).

(** A second interpretation, in which a float is a whole number or NaN
    ([None]); it is otherwise as the first. *)
Definition PFn : PyFloat := {|
  float := option Z;
  float_mul_int := fun x n =>
    if converts n then Some (option_map (fun a => a * n) x) else None;
  float_sum := fun xs =>
    fold_left (fun a x => match a, x with
                          | Some a, Some x => Some (a + x)
                          | _, _ => None
                          end) xs (Some 0);
  float_of_str := fun s =>
    if String.eqb (Str.lower (Str.strip s)) "nan" then Some None
    else option_map Some (parse_int s);
  float_le_0 := fun x => match x with Some a => a <=? 0 | None => false end;
  float_isnan := fun x => match x with Some _ => false | None => true end
|}.

Definition EXn : @Externals PFn := {|
  int_of_str := parse_int;
  check_password_hash := fun pwhash password => String.eqb pwhash ("plain$" ++ password);
  timestamp := fun dt => dt / 1000000;
  str_of_cart := fun c => String.concat "," (Dict.keys c)
|}.

(** A visitor whose cart holds one line with a price that is NaN. *)
Definition w_nan : @World.t PFn :=
  World.mk PFn (Db.mk PFn [] [] [])
    (Session.mk PFn (Some [("7-nosize", Item.mk PFn 7 "Nokshi Handloom Saree" None "" 1)])
       None [])
    [].

End Demo.

(** * Properties *)

(** ** [slugify] *)

Lemma string_app_assoc (a b c : string) : a ++ (b ++ c) = (a ++ b) ++ c.
Proof.
  induction a as [|x a IH]; simpl; [reflexivity|now rewrite IH].
Qed.

Lemma replace_app (old : ascii) (new a b : string) :
  Str.replace old new (a ++ b) = Str.replace old new a ++ Str.replace old new b.
Proof.
  induction a as [|c a IH]; simpl; [reflexivity|].
  destruct (Ascii.eqb c old); simpl; rewrite IH; [|reflexivity].
  now rewrite string_app_assoc.
Qed.

Lemma slugify_char (c : ascii) :
  slugify (String c EmptyString) = slug_char c.
Proof.
  destruct c as [[] [] [] [] [] [] [] []]; reflexivity.
Qed.

Lemma slugify_cons (c : ascii) (s : string) :
  slugify (String c s) = slugify (String c EmptyString) ++ slugify s.
Proof.
  unfold slugify.
  change (Str.lower (String c s))
    with (String (Str.lower_char c) EmptyString ++ Str.lower s).
  now rewrite !replace_app.
Qed.

(** C7: [slugify] is the one-pass rule of the specification (lowercase;
    space and slash to a hyphen; ampersand to "and"), and it maps
    "Silk & Cotton Saree/Set" to "silk-and-cotton-saree-set". *)
Theorem slugify_derivation :
  (forall text, slugify text = slugify_spec text) /\
  slugify "Silk & Cotton Saree/Set" = "silk-and-cotton-saree-set".
Proof.
  split; [|reflexivity].
  induction text as [|c s IH]; [reflexivity|].
  rewrite slugify_cons, slugify_char, IH. reflexivity.
Qed.

(** ** The dict operations *)

Section DictFacts.
Context {V : Type}.
Implicit Types (d : Dict.t V) (k : string) (v : V).

Lemma dict_get_set_eq k v d : Dict.get k (Dict.set k v d) = Some v.
Proof.
  induction d as [|[k' v'] d IH]; simpl.
  - now rewrite String.eqb_refl.
  - destruct (String.eqb k k') eqn:E; simpl; rewrite E; auto.
Qed.

Lemma dict_get_set_ne k k' v d :
  k' <> k -> Dict.get k' (Dict.set k v d) = Dict.get k' d.
Proof.
  intros Hne. induction d as [|[k0 v0] d IH]; simpl.
  - apply String.eqb_neq in Hne. now rewrite Hne.
  - destruct (String.eqb k k0) eqn:E; simpl; [|now rewrite IH].
    apply String.eqb_eq in E; subst k0.
    apply String.eqb_neq in Hne. now rewrite Hne.
Qed.

Lemma dict_get_none k d : Dict.get k d = None <-> ~ In k (Dict.keys d).
Proof.
  induction d as [|[k' v'] d IH]; simpl; [tauto|].
  destruct (String.eqb k k') eqn:E.
  - apply String.eqb_eq in E. split; [discriminate|]. intros H; exfalso; auto.
  - apply String.eqb_neq in E. rewrite IH. split.
    + intros H [Hk|Hk]; [congruence|auto].
    + intros H Hk. apply H. now right.
Qed.

Lemma dict_get_some_in k v d : Dict.get k d = Some v -> In k (Dict.keys d).
Proof.
  intros H. destruct (in_dec string_dec k (Dict.keys d)) as [?|Hn]; [assumption|].
  apply dict_get_none in Hn. congruence.
Qed.

Lemma dict_keys_set_present k v v0 d :
  Dict.get k d = Some v0 -> Dict.keys (Dict.set k v d) = Dict.keys d.
Proof.
  unfold Dict.keys. induction d as [|[k' v'] d IH]; simpl; [discriminate|].
  destruct (String.eqb k k') eqn:E; simpl; [reflexivity|].
  intros H. f_equal. now apply IH.
Qed.

Lemma dict_set_absent k v d :
  Dict.get k d = None -> Dict.set k v d = (d ++ [(k, v)])%list.
Proof.
  induction d as [|[k' v'] d IH]; simpl; [reflexivity|].
  destruct (String.eqb k k'); [discriminate|]. intros H. now rewrite IH.
Qed.


Lemma dict_values_del k d :
  forall x, In x (Dict.values (Dict.del k d)) -> In x (Dict.values d).
Proof.
  unfold Dict.values. induction d as [|[k' v'] d IH]; simpl; intros x; [tauto|].
  destruct (String.eqb k k'); simpl; [auto|]. intros [H|H]; auto.
Qed.

Lemma dict_get_app_skip k (pre d : Dict.t V) :
  ~ In k (Dict.keys pre) -> Dict.get k (pre ++ d)%list = Dict.get k d.
Proof.
  induction pre as [|[k' v'] pre IH]; simpl; [reflexivity|].
  intros H. destruct (String.eqb k k') eqn:E.
  - apply String.eqb_eq in E. exfalso; auto.
  - apply IH. auto.
Qed.

Lemma dict_del_app_skip k v (pre suf : Dict.t V) :
  ~ In k (Dict.keys pre) -> Dict.del k (pre ++ (k, v) :: suf)%list = (pre ++ suf)%list.
Proof.
  induction pre as [|[k' v'] pre IH]; simpl; intros H.
  - now rewrite String.eqb_refl.
  - destruct (String.eqb k k') eqn:E.
    + apply String.eqb_eq in E. exfalso; auto.
    + rewrite IH; auto.
Qed.

Lemma dict_set_app_skip k v v0 (pre suf : Dict.t V) :
  ~ In k (Dict.keys pre) ->
  Dict.set k v (pre ++ (k, v0) :: suf)%list = (pre ++ (k, v) :: suf)%list.
Proof.
  induction pre as [|[k' v'] pre IH]; simpl; intros H.
  - now rewrite String.eqb_refl.
  - destruct (String.eqb k k') eqn:E.
    + apply String.eqb_eq in E. exfalso; auto.
    + rewrite IH; auto.
Qed.

Lemma dict_wf_set k v d : Dict.wf d -> Dict.wf (Dict.set k v d).
Proof.
  unfold Dict.wf. intros Hwf.
  destruct (Dict.get k d) as [v0|] eqn:E.
  - now rewrite (dict_keys_set_present k v v0 d E).
  - rewrite (dict_set_absent k v d E). unfold Dict.keys. rewrite map_app. simpl.
    apply NoDup_app; [assumption|repeat constructor; simpl; tauto|].
    intros x Hx [Hk|[]]; subst x. now apply dict_get_none in E.
Qed.

Lemma dict_keys_del_incl k d : forall x, In x (Dict.keys (Dict.del k d)) -> In x (Dict.keys d).
Proof.
  induction d as [|[k' v'] d IH]; simpl; intros x; [tauto|].
  destruct (String.eqb k k'); simpl; [auto|]. intros [H|H]; auto.
Qed.

Lemma dict_wf_del k d : Dict.wf d -> Dict.wf (Dict.del k d).
Proof.
  unfold Dict.wf. induction d as [|[k' v'] d IH]; simpl; intros Hwf; [constructor|].
  inversion Hwf as [|? ? Hn Hd]; subst.
  destruct (String.eqb k k'); simpl; [assumption|].
  constructor; [|now apply IH].
  intros Hin. apply Hn. now apply (dict_keys_del_incl k d).
Qed.

Lemma dict_wf_count k d :
  Dict.wf d -> In k (Dict.keys d) -> count_occ string_dec (Dict.keys d) k = 1%nat.
Proof.
  intros Hwf Hin. apply (NoDup_count_occ' string_dec); assumption.
Qed.

End DictFacts.

(** ** The handlers *)

Section AppFacts.
Context `{PF : PyFloat} `{EX : !Externals}.

(** Unfolds the computation of a handler down to the world it acts on. *)
Ltac unfold_handler :=
  unfold run, bind, uncaught, ret, raise, flash, save_cart, session_set_cart,
    session_set_admin_id, session_pop_admin_id, get_cart, is_admin,
    read_session, write_session, select, write_db, refused; simpl.

(** *** Adding to the cart *)

Lemma add_to_cart_run product_id request w product :
  find_product (fun p => Product.id p =? product_id) (World.db w) = Some product ->
  run (add_to_cart product_id request) w =
  let s := World.session w in
  let stmts := (World.stmts w ++ [SELECT ProductT])%list in
  if Product.in_stock product then
    let key := cart_key product_id (add_size request) in
    let cart :=
      match Dict.get key (cart_of w) with
      | Some item =>
          Dict.set key (Item.set_qty item (Item.qty item + add_qty request)) (cart_of w)
      | None =>
          Dict.set key
            (Item.mk _ (Product.id product) (Product.name product)
               (Product.price product) (add_size request) (add_qty request))
            (cart_of w)
      end in
    (redirect cart_url,
     World.mk _ (World.db w)
       (Session.mk _ (Some cart) (Session.admin_id s)
          (Session.flashes s ++ [("success", "Added to cart.")]))
       stmts)
  else
    (redirect products_view_url,
     World.mk _ (World.db w)
       (Session.mk _ (Session.cart s) (Session.admin_id s)
          (Session.flashes s ++ [("warning", "This item is out of stock.")]))
       stmts).
Proof.
  intros Hfind. unfold add_to_cart, Product_get_or_404. unfold_handler.
  rewrite Hfind. simpl. destruct (Product.in_stock product); reflexivity.
Qed.

(** C8: adding a product that is out of stock leaves the session cart as
    it was, flashes the warning "This item is out of stock." and redirects
    to the shop listing; the store is not written. *)
Theorem add_to_cart_out_of_stock product_id request w product :
  find_product (fun p => Product.id p =? product_id) (World.db w) = Some product ->
  Product.in_stock product = false ->
  let w' := snd (run (add_to_cart product_id request) w) in
  fst (run (add_to_cart product_id request) w) = redirect products_view_url /\
  Session.cart (World.session w') = Session.cart (World.session w) /\
  Session.flashes (World.session w') =
    (Session.flashes (World.session w) ++ [("warning", "This item is out of stock.")])%list /\
  Session.admin_id (World.session w') = Session.admin_id (World.session w) /\
  World.db w' = World.db w.
Proof.
  intros Hfind Hstock. simpl.
  rewrite (add_to_cart_run _ _ _ _ Hfind), Hstock. simpl. auto.
Qed.

(** C5: adding an in-stock product files it under the composite key
    "{product_id}-{size or 'nosize'}"; a key already in the cart has its
    quantity raised by the new quantity and the cart keeps one line item for
    it, a new key gets a line item with the product's id, name and price,
    the size and the quantity.  The cart holds each key once, as a dict
    does. *)
Theorem add_to_cart_line_item product_id request w product :
  find_product (fun p => Product.id p =? product_id) (World.db w) = Some product ->
  Product.in_stock product = true ->
  Dict.wf (cart_of w) ->
  let size := add_size request in
  let qty := add_qty request in
  let key := cart_key product_id size in
  let cart' := cart_of (snd (run (add_to_cart product_id request) w)) in
  (size = "" -> key = Str.of_int product_id ++ "-nosize") /\
  (size <> "" -> key = Str.of_int product_id ++ "-" ++ size) /\
  count_occ string_dec (Dict.keys cart') key = 1%nat /\
  match Dict.get key (cart_of w) with
  | Some item =>
      Dict.get key cart' = Some (Item.set_qty item (Item.qty item + qty)) /\
      Dict.keys cart' = Dict.keys (cart_of w)
  | None =>
      cart' = (cart_of w ++
               [(key, Item.mk _ (Product.id product) (Product.name product)
                        (Product.price product) size qty)])%list
  end.
Proof.
  intros Hfind Hstock Hwf size qty key cart'.
  assert (Hc : cart' =
               match Dict.get key (cart_of w) with
               | Some item => Dict.set key (Item.set_qty item (Item.qty item + qty)) (cart_of w)
               | None =>
                   Dict.set key
                     (Item.mk _ (Product.id product) (Product.name product)
                        (Product.price product) size qty) (cart_of w)
               end).
  { subst cart'. rewrite (add_to_cart_run _ _ _ _ Hfind), Hstock. reflexivity. }
  clearbody cart'. subst cart'.
  split; [|split; [|split]].
  - subst key. unfold cart_key. now intros ->.
  - subst key. unfold cart_key. destruct size; [congruence|reflexivity].
  - apply dict_wf_count.
    + destruct (Dict.get key (cart_of w)); now apply dict_wf_set.
    + destruct (Dict.get key (cart_of w));
        eapply dict_get_some_in; apply dict_get_set_eq.
  - destruct (Dict.get key (cart_of w)) as [item|] eqn:E.
    + split; [apply dict_get_set_eq|]. now apply dict_keys_set_present with item.
    + now apply dict_set_absent.
Qed.

(** C10: a repeated add under an existing key changes that line item's
    quantity only: id, name, price and size stay as first stored, whatever
    the catalogue now says of the product, and every other key keeps its
    line item. *)
Theorem add_to_cart_existing_key product_id request w product item :
  find_product (fun p => Product.id p =? product_id) (World.db w) = Some product ->
  Product.in_stock product = true ->
  let key := cart_key product_id (add_size request) in
  Dict.get key (cart_of w) = Some item ->
  let cart' := cart_of (snd (run (add_to_cart product_id request) w)) in
  Dict.get key cart' =
    Some (Item.mk _ (Item.id item) (Item.name item) (Item.price item) (Item.size item)
            (Item.qty item + add_qty request)) /\
  (forall k, k <> key -> Dict.get k cart' = Dict.get k (cart_of w)) /\
  Dict.keys cart' = Dict.keys (cart_of w).
Proof.
  intros Hfind Hstock key Hget cart'.
  assert (Hc : cart' =
               Dict.set key (Item.set_qty item (Item.qty item + add_qty request))
                 (cart_of w)).
  { subst cart'. rewrite (add_to_cart_run _ _ _ _ Hfind), Hstock.
    cbv zeta. fold key. rewrite Hget. reflexivity. }
  clearbody cart'. subst cart'. split; [|split].
  - apply dict_get_set_eq.
  - intros k Hk. now apply dict_get_set_ne.
  - now apply dict_keys_set_present with item.
Qed.

(** *** The admin gate *)

(** C6: without an admin identifier in the session, each admin-area view
    (dashboard, product management under either method, stock toggle)
    answers with a redirect to the login route and leaves the world as it
    was: no statement reaches the store, nothing is written, no template
    is rendered. *)
Theorem admin_gate r request w :
  admin_area r = true ->
  Session.admin_id (World.session w) = None ->
  run (view r request) w = (redirect admin_login_url, w) /\
  (allows r (Request.method request) = true ->
   serve r request w = (redirect admin_login_url, w)).
Proof.
  intros Harea Hnone.
  assert (H : run (view r request) w = (redirect admin_login_url, w)).
  { destruct r; try discriminate Harea; simpl;
      unfold admin_dashboard, admin_products, admin_toggle_stock,
        require_admin_redirect; unfold_handler; rewrite Hnone; reflexivity. }
  split; [exact H|]. intros Hallow. unfold serve. now rewrite Hallow.
Qed.

(** *** Logging in *)

(** C9: a login POST for an unknown username and one for a known username
    with a password that does not verify are answered alike: the "danger"
    flash "Invalid credentials.", the login form rendered again, and the
    session's admin identifier left as it was. *)
Theorem admin_login_failure_uniform request1 request2 w user :
  Request.method request1 = POST ->
  Request.method request2 = POST ->
  find (fun u => String.eqb (AdminUser.username u) (form_strip request1 "username" ""))
    (Db.admin_users (World.db w)) = None ->
  find (fun u => String.eqb (AdminUser.username u) (form_strip request2 "username" ""))
    (Db.admin_users (World.db w)) = Some user ->
  AdminUser.check_password user (form_strip request2 "password" "") = false ->
  run (admin_login request1) w = run (admin_login request2) w /\
  run (admin_login request2) w =
    (render_template admin_login_html,
     flashed (queried w (SELECT AdminUserT)) "danger" "Invalid credentials.") /\
  Session.admin_id (World.session (snd (run (admin_login request2) w))) =
    Session.admin_id (World.session w).
Proof.
  intros Hm1 Hm2 Hnone Hsome Hcheck.
  assert (H1 : run (admin_login request1) w =
               (render_template admin_login_html,
                flashed (queried w (SELECT AdminUserT)) "danger" "Invalid credentials.")).
  { unfold admin_login, AdminUser_first_by_username. rewrite Hm1.
    unfold_handler. rewrite Hnone. reflexivity. }
  assert (H2 : run (admin_login request2) w =
               (render_template admin_login_html,
                flashed (queried w (SELECT AdminUserT)) "danger" "Invalid credentials.")).
  { unfold admin_login, AdminUser_first_by_username. rewrite Hm2.
    unfold_handler. rewrite Hsome, Hcheck. reflexivity. }
  rewrite H1, H2. auto.
Qed.

(** *** Checking out *)

(** What a checkout answers and what it leaves behind. *)
Lemma checkout_run request w :
  run (checkout request) w =
  match cart_of w with
  | [] => (redirect products_view_url, flashed w "warning" "Your cart is empty.")
  | _ :: _ =>
      match cart_total (cart_of w) with
      | None => (abort 500, w)
      | Some total =>
          match Request.method request with
          | GET => (render_template (checkout_html (cart_of w) total), w)
          | POST =>
              let name := form_strip request "name" "" in
              let email := form_strip request "email" "" in
              let phone := form_strip request "phone" "" in
              let address := form_strip request "address" "" in
              if all [name; email; phone; address] then
                if float_isnan total then (abort 500, queried w (INSERT OrderT))
                else
                  let d := World.db w in
                  let s := World.session w in
                  let order :=
                    Order.mk _ (next_id (map Order.id (Db.orders d))) name email phone
                      address (str_of_cart (cart_of w)) total "Pending"
                      (Request.utcnow request) in
                  (redirect (order_success_url (Order.id order)),
                   World.mk _
                     (Db.mk _ (Db.products d) (Db.orders d ++ [order]) (Db.admin_users d))
                     (Session.mk _ (Some []) (Session.admin_id s)
                        (Session.flashes s ++
                         [("success", "Order placed! We will contact you to confirm.")]))
                     (World.stmts w ++ [INSERT OrderT]))
              else (redirect checkout_url, flashed w "danger" "Please fill in all fields.")
          end
      end
  end.
Proof.
  unfold checkout, Order_add_commit, cart_of, queried. unfold_handler.
  destruct w as [d s stmts]. simpl.
  destruct (Session.cart s) as [[|i c]|]; simpl; try reflexivity.
  destruct (cart_total (i :: c)) as [total|]; simpl; [|reflexivity].
  destruct (Request.method request); [reflexivity|].
  match goal with |- context [negb ?b] => destruct b end; simpl; [|reflexivity].
  destruct (float_isnan total); reflexivity.
Qed.

Lemma truthy_nonempty (s : string) : Str.truthy s = true <-> s <> "".
Proof.
  destruct s; simpl; split; congruence.
Qed.

(** The line totals are the products of price and quantity, line by
    line, whenever all of them can be formed. *)
Lemma line_totals_some (items : list Item.t) xs :
  line_totals items = Some xs <->
  Forall2 (fun i x => float_mul_int (Item.price i) (Item.qty i) = Some x) items xs.
Proof.
  revert xs. induction items as [|i items IH]; intros xs; simpl.
  - split; [intros [= <-]; constructor|intros H; now inversion H].
  - destruct (float_mul_int (Item.price i) (Item.qty i)) as [x|] eqn:Ex.
    + destruct (line_totals items) as [ys|]; simpl.
      * split.
        -- intros [= <-]. constructor; [assumption|now apply IH].
        -- intros H. inversion H as [|? y ? ys' Hy Hys]; subst.
           apply IH in Hys. congruence.
      * split; [discriminate|]. intros H. inversion H as [|? y ? ys' Hy Hys]; subst.
        apply IH in Hys. discriminate.
    + split; [discriminate|]. intros H. inversion H; subst. congruence.
Qed.

(** No total is formed exactly when the product of some line cannot be. *)
Lemma line_totals_none (items : list Item.t) :
  line_totals items = None <->
  Exists (fun i => float_mul_int (Item.price i) (Item.qty i) = None) items.
Proof.
  induction items as [|i items IH]; simpl.
  - split; [discriminate|]. intros H. inversion H.
  - destruct (float_mul_int (Item.price i) (Item.qty i)) as [x|] eqn:Ex.
    + destruct (line_totals items) as [ys|]; simpl.
      * split; [discriminate|]. intros H. exfalso.
        inversion H as [? ? Hi|? ? Hrest]; subst; [congruence|].
        apply IH in Hrest. discriminate.
      * split; [intros _; right; now apply IH|reflexivity].
    + split; [intros _; now left|reflexivity].
Qed.

Lemma all_fields_nonblank (a b c d : string) :
  a <> "" -> b <> "" -> c <> "" -> d <> "" -> all [a; b; c; d] = true.
Proof.
  intros Ha Hb Hc Hd. apply truthy_nonempty in Ha, Hb, Hc, Hd.
  unfold all, forallb. now rewrite Ha, Hb, Hc, Hd.
Qed.

(** C1, as amended: a POST to /checkout with a non-empty cart whose total
    can be formed (every price times quantity is a float) and is not NaN,
    and with the four trimmed fields non-empty, inserts exactly one order,
    whose total is the sum of price times quantity over the line items,
    whose status is "Pending" and whose creation time is the clock's
    reading, and leaves the session cart empty. *)
Theorem checkout_success request w total :
  Request.method request = POST ->
  cart_of w <> [] ->
  cart_total (cart_of w) = Some total ->
  float_isnan total = false ->
  form_strip request "name" "" <> "" ->
  form_strip request "email" "" <> "" ->
  form_strip request "phone" "" <> "" ->
  form_strip request "address" "" <> "" ->
  exists order,
    let w' := snd (run (checkout request) w) in
    fst (run (checkout request) w) = redirect (order_success_url (Order.id order)) /\
    Db.orders (World.db w') = (Db.orders (World.db w) ++ [order])%list /\
    Order.total_price order = total /\
    (exists xs,
       Forall2 (fun i x => float_mul_int (Item.price i) (Item.qty i) = Some x)
         (Dict.values (cart_of w)) xs /\
       total = float_sum xs) /\
    Order.status order = "Pending" /\
    Order.created_at order = Request.utcnow request /\
    Session.cart (World.session w') = Some [] /\
    cart_of w' = [].
Proof.
  intros Hpost Hcart Htotal Hnan Hname Hemail Hphone Haddress.
  pose proof (all_fields_nonblank _ _ _ _ Hname Hemail Hphone Haddress) as Hall.
  assert (Hsum : exists xs,
            Forall2 (fun i x => float_mul_int (Item.price i) (Item.qty i) = Some x)
              (Dict.values (cart_of w)) xs /\
            total = float_sum xs).
  { unfold cart_total in Htotal.
    destruct (line_totals (Dict.values (cart_of w))) as [xs|] eqn:Exs; [|discriminate].
    exists xs. split; [now apply line_totals_some|]. simpl in Htotal. congruence. }
  rewrite checkout_run. destruct (cart_of w) as [|i c] eqn:Ecart; [congruence|].
  rewrite Htotal, Hpost. cbv zeta. rewrite Hall, Hnan.
  exists (Order.mk _ (next_id (map Order.id (Db.orders (World.db w))))
            (form_strip request "name" "") (form_strip request "email" "")
            (form_strip request "phone" "") (form_strip request "address" "")
            (str_of_cart (i :: c)) total "Pending" (Request.utcnow request)).
  simpl. repeat split. exact Hsum.
Qed.

(** C2, as amended: /checkout inserts an order only for a non-empty cart
    under POST with the four trimmed fields non-empty.  With an empty cart
    (either method) it flashes the warning "Your cart is empty." and
    redirects to the shop listing.  On a POST with a blank field and a cart
    whose total can be formed it flashes the danger message "Please fill
    in all fields." and redirects to the checkout route; when the total
    cannot be formed the request ends in a 500 before the fields are
    looked at.  In each of these cases the store and the session cart are
    as before. *)
Theorem checkout_guard request w :
  let name := form_strip request "name" "" in
  let email := form_strip request "email" "" in
  let phone := form_strip request "phone" "" in
  let address := form_strip request "address" "" in
  let r := run (checkout request) w in
  (Db.orders (World.db (snd r)) <> Db.orders (World.db w) ->
   cart_of w <> [] /\ Request.method request = POST /\
   name <> "" /\ email <> "" /\ phone <> "" /\ address <> "") /\
  (cart_of w = [] ->
   r = (redirect products_view_url, flashed w "warning" "Your cart is empty.")) /\
  (cart_of w <> [] -> Request.method request = POST ->
   name = "" \/ email = "" \/ phone = "" \/ address = "" ->
   match cart_total (cart_of w) with
   | Some _ => r = (redirect checkout_url, flashed w "danger" "Please fill in all fields.")
   | None => r = (abort 500, w)
   end).
Proof.
  intros name email phone address r. subst r. rewrite checkout_run.
  fold name email phone address.
  split; [|split].
  - destruct (cart_of w) as [|i c]; [simpl; congruence|].
    destruct (cart_total (i :: c)) as [total|]; [|simpl; congruence].
    destruct (Request.method request); [simpl; congruence|].
    cbv zeta. unfold all, forallb.
    destruct (Str.truthy name) eqn:E1; [|simpl; congruence].
    destruct (Str.truthy email) eqn:E2; [|simpl; congruence].
    destruct (Str.truthy phone) eqn:E3; [|simpl; congruence].
    destruct (Str.truthy address) eqn:E4; [|simpl; congruence].
    intros _. apply truthy_nonempty in E1, E2, E3, E4.
    repeat split; congruence.
  - intros ->. reflexivity.
  - intros Hcart Hpost Hblank.
    destruct (cart_of w) as [|i c]; [congruence|].
    destruct (cart_total (i :: c)) as [total|]; [|reflexivity].
    rewrite Hpost. cbv zeta.
    replace (all [name; email; phone; address]) with false; [reflexivity|].
    unfold all, forallb.
    destruct Hblank as [-> | [-> | [-> | ->]]]; simpl;
      repeat (match goal with |- false = (Str.truthy ?x && _)%bool =>
                                destruct (Str.truthy x) end; simpl); reflexivity.
Qed.

(** *** Updating the cart *)

Lemma update_cart_loop_spec request (suf pre : Cart) w :
  Dict.wf (pre ++ suf)%list ->
  update_cart_loop request (Dict.keys suf) (pre ++ suf)%list w =
  (inl (pre ++ update_cart_spec request suf)%list, w).
Proof.
  revert pre. induction suf as [|[key item] suf IH]; intros pre Hwf; simpl.
  - reflexivity.
  - assert (Hpre : ~ In key (Dict.keys pre)).
    { unfold Dict.wf, Dict.keys in Hwf. rewrite map_app in Hwf. simpl in Hwf.
      apply NoDup_remove_2 in Hwf. intros Hin. apply Hwf.
      apply in_or_app. now left. }
    unfold update_cart_item.
    rewrite (dict_get_app_skip key pre _ Hpre). simpl. rewrite String.eqb_refl.
    destruct (update_qty request key item <=? 0) eqn:Eq.
    + rewrite (dict_del_app_skip key item pre suf Hpre). apply IH.
      unfold Dict.wf, Dict.keys in *. rewrite map_app in *. simpl in Hwf.
      now apply NoDup_remove_1 in Hwf.
    + rewrite (dict_set_app_skip key _ item pre suf Hpre).
      change (pre ++ (key, Item.set_qty item (update_qty request key item)) :: suf)%list
        with (pre ++ [(key, Item.set_qty item (update_qty request key item))] ++ suf)%list.
      rewrite app_assoc, IH.
      * now rewrite <- app_assoc.
      * rewrite <- app_assoc. unfold Dict.wf, Dict.keys in *.
        rewrite map_app in *. exact Hwf.
Qed.

Lemma update_cart_run request w :
  Dict.wf (cart_of w) ->
  run (update_cart request) w =
  (redirect cart_url,
   let s := World.session w in
   World.mk _ (World.db w)
     (Session.mk _ (Some (update_cart_spec request (cart_of w))) (Session.admin_id s)
        (Session.flashes s ++ [("info", "Cart updated.")]))
     (World.stmts w)).
Proof.
  intros Hwf.
  pose proof (update_cart_loop_spec request (cart_of w) [] w Hwf) as Hloop.
  simpl in Hloop. unfold update_cart. unfold_handler. unfold cart_of in *.
  rewrite Hloop. reflexivity.
Qed.

Lemma update_cart_spec_keys request (c : Cart) :
  forall k, In k (Dict.keys (update_cart_spec request c)) -> In k (Dict.keys c).
Proof.
  induction c as [|[key item] c IH]; simpl; intros k; [tauto|].
  destruct (update_qty request key item <=? 0); simpl; [auto|].
  intros [H|H]; auto.
Qed.



Lemma update_cart_spec_get request (c : Cart) key item :
  Dict.wf c ->
  Dict.get key c = Some item ->
  Dict.get key (update_cart_spec request c) =
  if update_qty request key item <=? 0 then None
  else Some (Item.set_qty item (update_qty request key item)).
Proof.
  unfold Dict.wf. induction c as [|[k i] c IH]; simpl; [discriminate|].
  intros Hwf. inversion Hwf as [|? ? Hn Hd]; subst.
  destruct (String.eqb key k) eqn:E.
  - apply String.eqb_eq in E; subst k. intros [= ->].
    destruct (update_qty request key item <=? 0); simpl.
    + apply dict_get_none. intros Hin. apply Hn.
      now apply (update_cart_spec_keys request c).
    + now rewrite String.eqb_refl.
  - intros Hget. destruct (update_qty request k i <=? 0); simpl.
    + now apply IH.
    + rewrite E. now apply IH.
Qed.

(** *** The cart invariant *)

Lemma keeps_ret {A} (a : A) : keeps_cart (ret a).
Proof. intros w. reflexivity. Qed.

Lemma keeps_raise {A} code : keeps_cart (raise (A := A) code).
Proof. intros w. reflexivity. Qed.

Lemma keeps_bind {A B} (c : M A) (k : A -> M B) :
  keeps_cart c -> (forall a, keeps_cart (k a)) -> keeps_cart (bind c k).
Proof.
  intros Hc Hk w. unfold bind. specialize (Hc w).
  destruct (c w) as [[a|code] w']; simpl in *; [|assumption].
  now rewrite Hk.
Qed.

Lemma keeps_flash message category : keeps_cart (flash message category).
Proof. intros w. reflexivity. Qed.

Lemma keeps_select table : keeps_cart (select table).
Proof. intros w. reflexivity. Qed.

Lemma keeps_is_admin : keeps_cart is_admin.
Proof. intros w. reflexivity. Qed.

Lemma keeps_session_set_admin_id uid : keeps_cart (session_set_admin_id uid).
Proof. intros w. reflexivity. Qed.

Lemma keeps_session_pop_admin_id : keeps_cart session_pop_admin_id.
Proof. intros w. reflexivity. Qed.

Lemma keeps_Product_add_commit name slug category price description image_url
    sizes is_featured in_stock :
  keeps_cart (Product_add_commit name slug category price description image_url
                sizes is_featured in_stock).
Proof.
  intros w. unfold Product_add_commit.
  destruct (_ || _)%bool; reflexivity.
Qed.

Lemma keeps_Product_set_in_stock_commit product b :
  keeps_cart (Product_set_in_stock_commit product b).
Proof. intros w. reflexivity. Qed.

(** Splits a computation along its binds, matches and conditionals down to
    the primitives above. *)
Ltac keeps :=
  repeat first
    [ apply keeps_ret | apply keeps_raise | apply keeps_flash | apply keeps_select
    | apply keeps_is_admin | apply keeps_session_set_admin_id
    | apply keeps_session_pop_admin_id | apply keeps_Product_add_commit
    | apply keeps_Product_set_in_stock_commit
    | apply keeps_bind; [|intros ?]
    | match goal with
      | |- keeps_cart (match ?x with _ => _ end) => destruct x
      | |- keeps_cart (let _ := _ in _) => cbv zeta
      end ].




Lemma add_to_cart_not_found product_id request w :
  find_product (fun p => Product.id p =? product_id) (World.db w) = None ->
  run (add_to_cart product_id request) w =
  (abort (if sqlite_integer product_id then 404 else 500), queried w (SELECT ProductT)).
Proof.
  intros Hfind. unfold add_to_cart, Product_get_or_404. unfold_handler.
  rewrite Hfind. destruct (sqlite_integer product_id); reflexivity.
Qed.









(** *** Adding a product *)

(** A valid add-product POST by an administrator whose derived slug is
    free inserts the product under that slug. *)
Lemma admin_products_post_fresh request w price :
  let name := form_strip request "name" "" in
  name <> "" ->
  form_strip request "category" "" <> "" ->
  float_of_str (form_strip request "price" "0") = Some price ->
  float_le_0 price = false ->
  float_isnan price = false ->
  existsb (fun p => String.eqb (Product.slug p) (slugify name))
    (Db.products (World.db w)) = false ->
  exists p,
    Product.slug p = slugify name /\
    Db.products (World.db (snd (admin_products_post request w))) =
      (Db.products (World.db w) ++ [p])%list.
Proof.
  intros name Hname Hcat Hprice Hpos Hnan Hfree.
  apply truthy_nonempty in Hname, Hcat.
  unfold admin_products_post, Product_first_by_slug, Product_add_commit, find_product.
  fold name. rewrite Hprice, Hname, Hcat, Hpos. unfold_handler.
  assert (Hfind : find (fun p => String.eqb (Product.slug p) (slugify name))
                    (Db.products (World.db w)) = None).
  { destruct (find _ _) eqn:E; [|reflexivity].
    apply find_some in E. destruct E as [Hin Heq].
    assert (existsb (fun p => String.eqb (Product.slug p) (slugify name))
              (Db.products (World.db w)) = true)
      by (apply existsb_exists; eauto).
    congruence. }
  rewrite Hfind, Hfree, Hnan. simpl. eexists. split; [|reflexivity]. reflexivity.
Qed.

(** The same POST when the derived slug is taken and the slug with the
    timestamp behind it is free: the product is inserted under the
    suffixed slug. *)
Lemma admin_products_post_suffixed request w price :
  let name := form_strip request "name" "" in
  let suffixed :=
    slugify name ++ "-" ++ Str.of_int (timestamp (Request.utcnow request)) in
  name <> "" ->
  form_strip request "category" "" <> "" ->
  float_of_str (form_strip request "price" "0") = Some price ->
  float_le_0 price = false ->
  float_isnan price = false ->
  existsb (fun p => String.eqb (Product.slug p) (slugify name))
    (Db.products (World.db w)) = true ->
  existsb (fun p => String.eqb (Product.slug p) suffixed)
    (Db.products (World.db w)) = false ->
  exists p,
    Product.slug p = suffixed /\
    Db.products (World.db (snd (admin_products_post request w))) =
      (Db.products (World.db w) ++ [p])%list.
Proof.
  intros name suffixed Hname Hcat Hprice Hpos Hnan Htaken Hfree.
  apply truthy_nonempty in Hname, Hcat.
  unfold admin_products_post, Product_first_by_slug, Product_add_commit, find_product.
  fold name. rewrite Hprice, Hname, Hcat, Hpos. unfold_handler.
  destruct (find (fun p => String.eqb (Product.slug p) (slugify name))
              (Db.products (World.db w))) as [p|] eqn:Hfind.
  - subst suffixed. simpl in Hfree. rewrite Hfree, Hnan. simpl.
    eexists. split; [|reflexivity]. reflexivity.
  - apply existsb_exists in Htaken. destruct Htaken as [p [Hin Heq]].
    eapply find_none in Hfind; [|exact Hin]. simpl in Hfind. congruence.
Qed.

(** The same POST when the derived slug is taken and the slug with the
    timestamp behind it is taken as well: the store refuses the insert, the
    request ends in a 500 and no product is added. *)
Lemma admin_products_post_taken_twice request w price :
  let name := form_strip request "name" "" in
  let suffixed :=
    slugify name ++ "-" ++ Str.of_int (timestamp (Request.utcnow request)) in
  name <> "" ->
  form_strip request "category" "" <> "" ->
  float_of_str (form_strip request "price" "0") = Some price ->
  float_le_0 price = false ->
  float_isnan price = false ->
  existsb (fun p => String.eqb (Product.slug p) (slugify name))
    (Db.products (World.db w)) = true ->
  existsb (fun p => String.eqb (Product.slug p) suffixed)
    (Db.products (World.db w)) = true ->
  admin_products_post request w =
  (inr 500, queried (queried w (SELECT ProductT)) (INSERT ProductT)).
Proof.
  intros name suffixed Hname Hcat Hprice Hpos Hnan Htaken Htwice.
  apply truthy_nonempty in Hname, Hcat.
  unfold admin_products_post, Product_first_by_slug, Product_add_commit, find_product.
  fold name. rewrite Hprice, Hname, Hcat, Hpos. unfold_handler.
  destruct (find (fun p => String.eqb (Product.slug p) (slugify name))
              (Db.products (World.db w))) as [p|] eqn:Hfind.
  - subst suffixed. simpl in Htwice. rewrite Htwice. reflexivity.
  - apply existsb_exists in Htaken. destruct Htaken as [p [Hin Heq]].
    eapply find_none in Hfind; [|exact Hin]. simpl in Hfind. congruence.
Qed.

(** *** What a request may change *)

Lemma frame_ret {A X} (f : World.t -> X) (a : A) : keeps f (ret a).
Proof. intros w. reflexivity. Qed.

Lemma frame_raise {A X} (f : World.t -> X) code : keeps f (raise (A := A) code).
Proof. intros w. reflexivity. Qed.

Lemma frame_bind {A B X} (f : World.t -> X) (c : M A) (k : A -> M B) :
  keeps f c -> (forall a, keeps f (k a)) -> keeps f (bind c k).
Proof.
  intros Hc Hk w. unfold bind. specialize (Hc w).
  destruct (c w) as [[a|code] w']; simpl in *; [|assumption].
  now rewrite Hk.
Qed.

Lemma frame_run {X} (f : World.t -> X) (h : M Response) w :
  keeps f h -> f (snd (run h w)) = f w.
Proof.
  intros Hk. unfold run. specialize (Hk w).
  destruct (h w) as [[r|code] w']; simpl in *; assumption.
Qed.

Lemma update_cart_loop_world request keys (c : Cart) w :
  snd (update_cart_loop request keys c w) = w.
Proof.
  revert c. induction keys as [|key keys IH]; intros c; simpl; [reflexivity|].
  destruct (update_cart_item request c key); [apply IH|reflexivity].
Qed.

Lemma frame_update_cart_loop {X} (f : World.t -> X) request keys (c : Cart) :
  keeps f (update_cart_loop request keys c).
Proof. intros w. now rewrite update_cart_loop_world. Qed.

(** Splits a computation along its binds, matches and conditionals; a
    primitive is settled by running it. *)
Ltac frame :=
  repeat first
    [ apply frame_ret | apply frame_raise | apply frame_update_cart_loop
    | apply frame_bind; [|intros ?]
    | match goal with
      | |- keeps _ (match ?x with _ => _ end) => destruct x
      | |- keeps _ (let _ := _ in _) => cbv zeta
      end
    | solve [intros ?; reflexivity] ].

Ltac unfold_views :=
  unfold home, products_view, product_detail, add_to_cart, cart, update_cart,
    checkout, order_success, admin_login, admin_logout, admin_dashboard,
    admin_products, admin_products_post, admin_toggle_stock,
    require_admin_redirect, get_cart, save_cart, uncaught,
    Product_filter_limit, Product_filter_by_id_desc, Product_categories_in_stock,
    Product_get_or_404, Product_first_by_slug, Product_count, Order_get_or_404,
    Order_count, Order_count_by_status, Order_recent, AdminUser_first_by_username.

Lemma view_keeps_db r request :
  match r with
  | checkout_route | admin_products_route | admin_toggle_stock_route _ => True
  | _ => keeps World.db (view r request)
  end.
Proof.
  destruct r; simpl; try exact I; unfold_views; frame.
Qed.

Lemma run_bind {A} (c : M A) (k : A -> M Response) w :
  run (bind c k) w =
  match c w with
  | (inl a, w') => run (k a) w'
  | (inr code, w') => (abort code, w')
  end.
Proof.
  unfold run, bind. destruct (c w) as [[a|code] w']; reflexivity.
Qed.

Lemma require_admin_redirect_run w :
  require_admin_redirect w =
  (inl (if admin_of w then None else Some (redirect admin_login_url)), w).
Proof.
  unfold require_admin_redirect, admin_of. unfold_handler.
  destruct (Session.admin_id (World.session w)) as [uid|]; [|reflexivity].
  destruct (uid =? 0); reflexivity.
Qed.

Lemma existsb_slug_false slug (table : list Product.t) :
  existsb (fun p => String.eqb (Product.slug p) slug) table = false ->
  ~ In slug (map Product.slug table).
Proof.
  intros Hex Hin. apply in_map_iff in Hin. destruct Hin as [p [Hs Hp]].
  assert (existsb (fun p => String.eqb (Product.slug p) slug) table = true).
  { apply existsb_exists. exists p. split; [assumption|].
    rewrite Hs. apply String.eqb_refl. }
  congruence.
Qed.

Lemma Product_add_commit_step name slug category price description image_url sizes
    is_featured w :
  db_step true (World.db w)
    (World.db (snd (Product_add_commit name slug category price description image_url
                      sizes is_featured true w))).
Proof.
  unfold Product_add_commit.
  destruct (existsb _ (Db.products (World.db w))) eqn:E; simpl.
  - constructor.
  - destruct (float_isnan price); simpl; [constructor|].
    apply db_product; simpl; auto. now apply existsb_slug_false.
Qed.

Lemma admin_products_post_step request w :
  db_step true (World.db w) (World.db (snd (admin_products_post request w))).
Proof.
  unfold admin_products_post.
  destruct (float_of_str _) as [price|]; [|constructor].
  destruct (_ || _ || _)%bool; [constructor|]. cbv zeta.
  unfold bind at 1.
  destruct (Product_first_by_slug _ w) as [[existing|code] w1] eqn:E1.
  - assert (Hw1 : World.db w1 = World.db w).
    { unfold Product_first_by_slug in E1. revert E1. unfold_handler.
      intros [= _ <-]. reflexivity. }
    unfold bind.
    match goal with |- context [Product_add_commit ?a ?b ?c ?d ?e ?f ?g ?h true w1] =>
      pose proof (Product_add_commit_step a b c d e f g h w1) as Hstep;
      destruct (Product_add_commit a b c d e f g h true w1) as [[u|code] w2]
    end; simpl in *; rewrite Hw1 in Hstep; exact Hstep.
  - unfold Product_first_by_slug in E1. revert E1. unfold_handler. discriminate.
Qed.

Lemma db_step_weaken admin d d' : db_step false d d' -> db_step admin d d'.
Proof.
  intros H. destruct H; try discriminate; constructor; assumption.
Qed.

Lemma checkout_step request w :
  db_step false (World.db w) (World.db (snd (run (checkout request) w))).
Proof.
  rewrite checkout_run.
  destruct (cart_of w); [constructor|].
  destruct (cart_total _) as [total|]; [|constructor].
  destruct (Request.method request); [constructor|]. cbv zeta.
  match goal with |- context [if ?b then _ else _] => destruct b end;
    [|constructor].
  destruct (float_isnan total); [constructor|].
  simpl. apply db_order; reflexivity.
Qed.

Lemma admin_products_step request w :
  db_step (admin_of w) (World.db w) (World.db (snd (run (admin_products request) w))).
Proof.
  unfold admin_products. rewrite run_bind, require_admin_redirect_run.
  destruct (admin_of w); [|constructor].
  rewrite run_bind.
  assert (Hlist : forall w1,
    World.db (snd (run (bind (Product_filter_by_id_desc (fun _ => true))
                          (fun products => ret (render_template
                                                  (admin_products_html products)))) w1)) =
    World.db w1).
  { intros w1. apply (frame_run World.db). unfold Product_filter_by_id_desc. frame. }
  destruct (Request.method request).
  - unfold ret at 1. rewrite Hlist. constructor.
  - pose proof (admin_products_post_step request w) as Hstep.
    destruct (admin_products_post request w) as [[u|code] w1]; simpl in Hstep.
    + rewrite Hlist. exact Hstep.
    + exact Hstep.
Qed.

Lemma admin_toggle_stock_step product_id request w :
  db_step (admin_of w) (World.db w)
    (World.db (snd (run (admin_toggle_stock product_id request) w))).
Proof.
  unfold admin_toggle_stock. rewrite run_bind, require_admin_redirect_run.
  destruct (admin_of w); [|constructor].
  unfold Product_get_or_404, Product_set_in_stock_commit. unfold_handler.
  destruct (find_product _ (World.db w)) as [product|] eqn:Hfind; simpl;
    [|destruct (sqlite_integer product_id); constructor].
  apply find_some in Hfind. destruct Hfind as [Hin Hid].
  apply Z.eqb_eq in Hid.
  pose proof (db_toggle true (World.db w) product eq_refl Hin) as Hstep.
  unfold with_in_stock in Hstep. exact Hstep.
Qed.

Lemma serve_step r request w :
  db_step (admin_of w) (World.db w) (World.db (snd (serve r request w))).
Proof.
  unfold serve. destruct (allows r (Request.method request)); [|constructor].
  pose proof (view_keeps_db r request) as Hk.
  destruct r; cbn [view] in Hk |- *;
    try (rewrite (frame_run World.db _ w Hk); constructor).
  - apply db_step_weaken, checkout_step.
  - apply admin_products_step.
  - apply admin_toggle_stock_step.
Qed.

(** X1: whatever the route, method, form and session, one request changes
    the store in one of four ways only: not at all; one order appended
    under a fresh id with status "Pending"; and, when the session holds an
    administrator, one in-stock product appended under a fresh id and a
    slug no product holds, or the stock flag of one existing product
    flipped. *)
Theorem serve_db_step r request w :
  db_step (admin_of w) (World.db w) (World.db (snd (serve r request w))).
Proof.
  exact (serve_step r request w).
Qed.

(** X2: a visitor whose session holds no administrator cannot alter the
    catalogue or the administrators: after any request the products and
    the admin users are those before it. *)
Theorem anonymous_keeps_catalogue r request w :
  admin_of w = false ->
  let d' := World.db (snd (serve r request w)) in
  Db.products d' = Db.products (World.db w) /\
  Db.admin_users d' = Db.admin_users (World.db w).
Proof.
  intros Hanon. pose proof (serve_step r request w) as Hstep.
  rewrite Hanon in Hstep. simpl.
  destruct Hstep; try discriminate; auto.
Qed.

Lemma db_step_orders admin d d' :
  db_step admin d d' ->
  (exists new, Db.orders d' = (Db.orders d ++ new)%list) /\
  Db.admin_users d' = Db.admin_users d /\
  map Product.id (Db.products d') = map Product.id (Db.products d) \/
  (exists p, Db.products d' = (Db.products d ++ [p])%list /\
             Db.orders d' = Db.orders d /\ Db.admin_users d' = Db.admin_users d).
Proof.
  intros H. destruct H.
  - left. split; [exists []; now rewrite app_nil_r|auto].
  - left. split; [now exists [o]|auto].
  - right. exists p. auto.
  - left. split; [exists []; now rewrite app_nil_r|]. split; [reflexivity|].
    simpl. unfold with_in_stock. rewrite map_map. apply map_ext.
    intros p. destruct (Product.id p =? Product.id product); reflexivity.
Qed.

(** X3: along any sequence of requests the orders table only grows at its
    end (a placed order is never changed, removed or reordered) and the
    admin users stay as they were: no route writes that table. *)
Theorem orders_append_only rs w :
  let d' := World.db (serve_all rs w) in
  (exists new, Db.orders d' = (Db.orders (World.db w) ++ new)%list) /\
  Db.admin_users d' = Db.admin_users (World.db w).
Proof.
  revert w. induction rs as [|[r request] rs IH]; intros w; simpl.
  - split; [exists []; now rewrite app_nil_r|reflexivity].
  - destruct (IH (snd (serve r request w))) as [[new Hnew] Hadm].
    simpl in Hnew, Hadm. rewrite Hnew, Hadm.
    destruct (db_step_orders _ _ _ (serve_step r request w))
      as [[[new1 Ho] [Ha _]]|[p [_ [Ho Ha]]]].
    + rewrite Ho, Ha. split; [|reflexivity].
      exists (new1 ++ new)%list. now rewrite app_assoc.
    + rewrite Ho, Ha. split; [now exists new|reflexivity].
Qed.

(** *** Keys of the store *)

Lemma next_id_above ids : forall x, In x ids -> x < next_id ids.
Proof.
  unfold next_id. induction ids as [|i ids IH]; intros x Hx; [destruct Hx|].
  cbn [fold_right].
  pose proof (Z.le_max_l i (fold_right Z.max 0 ids)).
  pose proof (Z.le_max_r i (fold_right Z.max 0 ids)).
  destruct Hx as [->|Hx]; [lia|]. specialize (IH x Hx). lia.
Qed.

Lemma next_id_fresh ids : ~ In (next_id ids) ids.
Proof.
  intros H. apply next_id_above in H. lia.
Qed.

Lemma NoDup_snoc {A} (l : list A) (x : A) :
  NoDup l -> ~ In x l -> NoDup (l ++ [x]).
Proof.
  intros Hl Hx. apply NoDup_app; [assumption|repeat constructor; simpl; tauto|].
  intros y Hy [<-|[]]. contradiction.
Qed.

Lemma db_step_store_inv admin d d' :
  db_step admin d d' -> store_inv d -> store_inv d'.
Proof.
  unfold store_inv. intros H (Hid & Hslug & Hord). destruct H; simpl.
  - auto.
  - repeat split; try assumption. rewrite map_app. simpl.
    apply NoDup_snoc; [assumption|].
    match goal with Hi : Order.id _ = _ |- _ => rewrite Hi end. apply next_id_fresh.
  - repeat split; try assumption; rewrite map_app; simpl; apply NoDup_snoc;
      try assumption.
    match goal with Hi : Product.id _ = _ |- _ => rewrite Hi end. apply next_id_fresh.
  - repeat split; try assumption; unfold with_in_stock; rewrite map_map.
    + erewrite map_ext; [exact Hid|].
      intros q. destruct (Product.id q =? Product.id product); reflexivity.
    + erewrite map_ext; [exact Hslug|].
      intros q. destruct (Product.id q =? Product.id product); reflexivity.
Qed.

(** X4: if product ids, product slugs and order ids are each held once,
    they still are after any sequence of requests: fresh ids are above
    every id in the table and no insert or stock toggle repeats a slug. *)
Theorem store_keys_stay_unique rs w :
  store_inv (World.db w) -> store_inv (World.db (serve_all rs w)).
Proof.
  revert w. induction rs as [|[r request] rs IH]; intros w Hinv; simpl;
    [exact Hinv|].
  apply IH. eapply db_step_store_inv; [apply serve_step|exact Hinv].
Qed.

(** *** Toggling stock *)

Lemma admin_toggle_stock_run product_id request w product :
  admin_of w = true ->
  find_product (fun p => Product.id p =? product_id) (World.db w) = Some product ->
  run (admin_toggle_stock product_id request) w =
  (redirect admin_products_url,
   let d := World.db w in
   flashed
     (World.mk _
        (Db.mk _ (with_in_stock product_id (negb (Product.in_stock product))
                    (Db.products d))
           (Db.orders d) (Db.admin_users d))
        (World.session w)
        (World.stmts w ++ [SELECT ProductT; UPDATE ProductT]))
     "info" "Stock status updated.").
Proof.
  intros Hadmin Hfind.
  unfold admin_toggle_stock. rewrite run_bind, require_admin_redirect_run, Hadmin.
  unfold Product_get_or_404, Product_set_in_stock_commit. unfold_handler.
  rewrite Hfind. simpl.
  apply find_some in Hfind. destruct Hfind as [_ Hid]. apply Z.eqb_eq in Hid.
  unfold flashed, with_in_stock. simpl. rewrite Hid, <- app_assoc. reflexivity.
Qed.

Lemma NoDup_map_same {A B} (f : A -> B) (l : list A) x y :
  NoDup (map f l) -> In x l -> In y l -> f x = f y -> x = y.
Proof.
  induction l as [|a l IH]; simpl; intros Hnd Hx Hy Heq; [contradiction|].
  inversion Hnd as [|? ? Hn Hd]; subst.
  destruct Hx as [->|Hx], Hy as [->|Hy]; auto.
  - exfalso. apply Hn. rewrite Heq. now apply in_map.
  - exfalso. apply Hn. rewrite <- Heq. now apply in_map.
Qed.

Lemma set_in_stock_same (p : Product.t) : Product.set_in_stock p (Product.in_stock p) = p.
Proof. destruct p; reflexivity. Qed.

Lemma find_with_in_stock product_id b (table : list Product.t) product :
  find (fun p => Product.id p =? product_id) table = Some product ->
  find (fun p => Product.id p =? product_id) (with_in_stock product_id b table) =
  Some (Product.set_in_stock product b).
Proof.
  unfold with_in_stock. induction table as [|q table IH]; simpl; [discriminate|].
  destruct (Product.id q =? product_id) eqn:E; simpl.
  - intros [= ->]. now rewrite E.
  - rewrite E. exact IH.
Qed.

Lemma with_in_stock_twice product_id (table : list Product.t) product :
  NoDup (map Product.id table) ->
  In product table -> Product.id product = product_id ->
  with_in_stock product_id (Product.in_stock product)
    (with_in_stock product_id (negb (Product.in_stock product)) table) = table.
Proof.
  intros Hnd Hin Hid. unfold with_in_stock. rewrite map_map.
  rewrite <- (map_id table) at 2. apply map_ext_in. intros q Hq.
  destruct (Product.id q =? product_id) eqn:E; simpl; rewrite E; [|reflexivity].
  apply Z.eqb_eq in E.
  assert (q = product) by (eapply NoDup_map_same; eauto; congruence).
  subst q. destruct product; reflexivity.
Qed.

(** X5: with product ids held once, an administrator toggling the stock of
    an existing product twice leaves the store exactly as it was; after
    the first toggle the product's flag is the opposite one. *)
Theorem toggle_stock_twice product_id request1 request2 w product :
  admin_of w = true ->
  NoDup (map Product.id (Db.products (World.db w))) ->
  find_product (fun p => Product.id p =? product_id) (World.db w) = Some product ->
  let w1 := snd (run (admin_toggle_stock product_id request1) w) in
  let w2 := snd (run (admin_toggle_stock product_id request2) w1) in
  find_product (fun p => Product.id p =? product_id) (World.db w1) =
    Some (Product.set_in_stock product (negb (Product.in_stock product))) /\
  World.db w2 = World.db w.
Proof.
  intros Hadmin Hnd Hfind w1 w2.
  assert (Hw1 : w1 = snd (run (admin_toggle_stock product_id request1) w))
    by reflexivity.
  rewrite (admin_toggle_stock_run _ _ _ _ Hadmin Hfind) in Hw1. simpl in Hw1.
  assert (Hfind1 : find_product (fun p => Product.id p =? product_id) (World.db w1) =
                   Some (Product.set_in_stock product (negb (Product.in_stock product)))).
  { rewrite Hw1. unfold find_product. simpl. now apply find_with_in_stock. }
  split; [exact Hfind1|].
  assert (Hadmin1 : admin_of w1 = true) by (rewrite Hw1; exact Hadmin).
  subst w2. rewrite (admin_toggle_stock_run _ _ _ _ Hadmin1 Hfind1). simpl.
  rewrite Hw1. simpl. rewrite Bool.negb_involutive.
  apply find_some in Hfind. destruct Hfind as [Hin Hid]. apply Z.eqb_eq in Hid.
  rewrite (with_in_stock_twice product_id _ product Hnd Hin Hid).
  destruct (World.db w); reflexivity.
Qed.

(** *** Listings *)

Lemma insert_desc_perm {A} (key : A -> Z) x l :
  Permutation (insert_desc key x l) (x :: l).
Proof.
  induction l as [|y l IH]; simpl; [reflexivity|].
  destruct (key y <? key x); [reflexivity|].
  rewrite IH. apply perm_swap.
Qed.

Lemma order_by_desc_perm {A} (key : A -> Z) l :
  Permutation (order_by_desc key l) l.
Proof.
  unfold order_by_desc. induction l as [|x l IH]; simpl; [reflexivity|].
  rewrite insert_desc_perm. now constructor.
Qed.

Lemma insert_desc_sorted {A} (key : A -> Z) x l :
  descending key l -> descending key (insert_desc key x l).
Proof.
  unfold descending. induction l as [|y l IH]; simpl; intros Hs.
  - repeat constructor.
  - inversion Hs as [|? ? Hl Hy]; subst.
    destruct (key y <? key x) eqn:E.
    + apply Z.ltb_lt in E. constructor; [assumption|].
      constructor; [lia|]. rewrite Forall_forall in *. intros z Hz.
      specialize (Hy z Hz). lia.
    + apply Z.ltb_ge in E. constructor; [now apply IH|].
      rewrite Forall_forall in *. intros z Hz.
      apply (Permutation_in _ (insert_desc_perm key x l)) in Hz.
      destruct Hz as [<-|Hz]; [assumption|now apply Hy].
Qed.

Lemma order_by_desc_sorted {A} (key : A -> Z) l :
  descending key (order_by_desc key l).
Proof.
  unfold order_by_desc. induction l as [|x l IH]; simpl; [constructor|].
  now apply insert_desc_sorted.
Qed.

(** X6: the shop listing shows exactly the in-stock products (of the
    selected category, when one is given and not empty), each row once, in
    descending order of id; the category list holds each category of an
    in-stock product once, whatever category is selected.  Store and
    session are left as they were. *)
Theorem products_view_listing request w :
  let category := multidict_get (Request.args request) "category" in
  let shown p :=
    (Product.in_stock p &&
     match category with
     | Some c => if Str.truthy c then String.eqb (Product.category p) c else true
     | None => true
     end)%bool in
  exists products categories,
    fst (run (products_view request) w) =
      render_template (products_html products categories category) /\
    Permutation products (filter shown (Db.products (World.db w))) /\
    descending Product.id products /\
    NoDup categories /\
    (forall c, In c categories <->
               exists p, In p (Db.products (World.db w)) /\
                         Product.in_stock p = true /\ Product.category p = c) /\
    World.db (snd (run (products_view request) w)) = World.db w /\
    World.session (snd (run (products_view request) w)) = World.session w.
Proof.
  intros category shown.
  unfold products_view, Product_filter_by_id_desc, Product_categories_in_stock.
  unfold_handler. fold category.
  eexists. eexists. split; [reflexivity|].
  split; [|split; [apply order_by_desc_sorted|split; [apply NoDup_nodup|]]].
  - rewrite order_by_desc_perm. apply Permutation_refl'.
    apply filter_ext. intros p. subst shown. simpl.
    destruct category as [c|]; [destruct (Str.truthy c)|];
      simpl; try reflexivity; now rewrite Bool.andb_true_r.
  - split; [|split; reflexivity].
    intros c. rewrite nodup_In, in_map_iff. split.
    + intros [p [Hc Hp]]. apply filter_In in Hp. exists p. tauto.
    + intros [p [Hp [Hs Hc]]]. exists p. split; [assumption|].
      apply filter_In. tauto.
Qed.

Lemma firstn_subset {A} n (l : list A) x : In x (firstn n l) -> In x l.
Proof.
  revert l. induction n as [|n IH]; intros [|y l]; simpl; try tauto.
  intros [H|H]; auto.
Qed.

(** X7: the home page shows at most 8 products, all of them in stock and
    in the catalogue; all of them featured when some featured product is
    in stock; and at least one whenever any product is in stock.  Store
    and session are left as they were. *)
Theorem home_listing request w :
  exists products,
    fst (run (home request) w) = render_template (home_html products) /\
    (List.length products <= 8)%nat /\
    (forall p, In p products ->
               In p (Db.products (World.db w)) /\ Product.in_stock p = true) /\
    (existsb (fun p => Product.is_featured p && Product.in_stock p)%bool
       (Db.products (World.db w)) = true ->
     forall p, In p products -> Product.is_featured p = true) /\
    (existsb Product.in_stock (Db.products (World.db w)) = true -> products <> []) /\
    World.db (snd (run (home request) w)) = World.db w /\
    World.session (snd (run (home request) w)) = World.session w.
Proof.
  unfold home, Product_filter_limit, run, bind, ret, select.
  cbn -[firstn filter].
  set (all := Db.products (World.db w)).
  set (feat := filter (fun p => (Product.is_featured p && Product.in_stock p)%bool) all).
  assert (Hsub : forall (f : Product.t -> bool) p,
            In p (firstn 8 (filter f all)) -> In p all /\ f p = true).
  { intros f p Hp. apply firstn_subset in Hp. now apply filter_In in Hp. }
  assert (Hne : forall (f : Product.t -> bool),
            existsb f all = true -> firstn 8 (filter f all) <> []).
  { intros f Hex. apply existsb_exists in Hex. destruct Hex as [p [Hp Hf]].
    assert (Hin : In p (filter f all)) by (apply filter_In; auto).
    destruct (filter f all); [contradiction|]. discriminate. }
  destruct (firstn 8 feat) as [|p0 ps] eqn:Efeat; cbn -[firstn filter]; fold all.
  - exists (firstn 8 (filter Product.in_stock all)).
    split; [reflexivity|]. split; [apply firstn_le_length|].
    split; [intros p Hp; now apply Hsub|].
    split; [intros Hex; exfalso; now apply (Hne _ Hex)|].
    split; [now apply Hne|split; reflexivity].
  - exists (p0 :: ps). split; [reflexivity|].
    split; [rewrite <- Efeat; apply firstn_le_length|].
    split; [|split; [|split; [discriminate|split; reflexivity]]].
    + intros p Hp. rewrite <- Efeat in Hp. apply Hsub in Hp.
      destruct Hp as [Hin Hf]. apply andb_prop in Hf. tauto.
    + intros _ p Hp. rewrite <- Efeat in Hp. apply Hsub in Hp.
      destruct Hp as [Hin Hf]. apply andb_prop in Hf. tauto.
Qed.

(** X8: the product page answers either with an in-stock product of the
    catalogue that has the requested slug, or with a 404, and with a 404
    only if every product under that slug is out of stock (or none has
    it).  Store and session are left as they were. *)
Theorem product_detail_in_stock_only slug request w :
  match fst (run (product_detail slug request) w) with
  | render_template (product_detail_html p) =>
      In p (Db.products (World.db w)) /\ Product.slug p = slug /\
      Product.in_stock p = true
  | abort 404 =>
      forall p, In p (Db.products (World.db w)) -> Product.slug p = slug ->
                Product.in_stock p = false
  | _ => False
  end /\
  World.db (snd (run (product_detail slug request) w)) = World.db w /\
  World.session (snd (run (product_detail slug request) w)) = World.session w.
Proof.
  unfold product_detail, find_product. unfold_handler.
  destruct (find _ (Db.products (World.db w))) as [p|] eqn:Hfind; simpl.
  - apply find_some in Hfind. destruct Hfind as [Hin Hf].
    apply andb_prop in Hf. destruct Hf as [Hs Hst]. apply String.eqb_eq in Hs.
    auto.
  - split; [|split; reflexivity]. intros p Hin Hs.
    eapply find_none in Hfind; [|exact Hin]. simpl in Hfind.
    rewrite Hs, String.eqb_refl in Hfind. exact Hfind.
Qed.

(** X9: with slugs held once, after an administrator toggles an in-stock
    product off, its product page answers 404 and no row with its id is
    in stock, so no public listing shows it. *)
Theorem toggle_stock_hides product_id request request' w product :
  admin_of w = true ->
  NoDup (map Product.slug (Db.products (World.db w))) ->
  find_product (fun p => Product.id p =? product_id) (World.db w) = Some product ->
  Product.in_stock product = true ->
  let w1 := snd (run (admin_toggle_stock product_id request) w) in
  fst (run (product_detail (Product.slug product) request') w1) = abort 404 /\
  (forall q, In q (Db.products (World.db w1)) -> Product.id q = product_id ->
             Product.in_stock q = false).
Proof.
  intros Hadmin Hnd Hfind Hstock w1.
  assert (Hw1 : Db.products (World.db w1) =
                with_in_stock product_id false (Db.products (World.db w))).
  { subst w1. rewrite (admin_toggle_stock_run _ _ _ _ Hadmin Hfind), Hstock.
    reflexivity. }
  apply find_some in Hfind. destruct Hfind as [Hin Hid]. apply Z.eqb_eq in Hid.
  assert (Hoff : forall q, In q (Db.products (World.db w1)) ->
                   Product.id q = product_id \/ Product.slug q = Product.slug product ->
                   Product.in_stock q = false).
  { intros q Hq Hor. rewrite Hw1 in Hq. unfold with_in_stock in Hq.
    apply in_map_iff in Hq. destruct Hq as [q0 [<- Hq0]].
    destruct (Product.id q0 =? product_id) eqn:E; [reflexivity|].
    exfalso. apply Z.eqb_neq in E. destruct Hor as [Hi|Hs]; [contradiction|].
    assert (q0 = product) by (eapply NoDup_map_same; eauto). congruence. }
  split; [|intros q Hq Hi; apply Hoff; auto].
  unfold product_detail, find_product. unfold_handler.
  destruct (find _ (Db.products (World.db w1))) as [p|] eqn:Hf; [|reflexivity].
  exfalso. apply find_some in Hf. destruct Hf as [Hp Hb].
  apply andb_prop in Hb. destruct Hb as [Hs Hst]. apply String.eqb_eq in Hs.
  rewrite (Hoff p Hp (or_intror Hs)) in Hst. discriminate.
Qed.

(** *** More on the cart *)

(** X10: on a cart that holds each key once, [update_cart] always answers
    with the redirect to the cart page and never touches the store; a key
    whose settled quantity is positive keeps its line item with that
    quantity and its id, name, price and size, and the updated cart holds
    nothing else. *)
Theorem update_cart_line_items request w :
  Dict.wf (cart_of w) ->
  let r := run (update_cart request) w in
  fst r = redirect cart_url /\
  World.db (snd r) = World.db w /\
  (forall key item,
     Dict.get key (cart_of w) = Some item ->
     0 < update_qty request key item ->
     Dict.get key (cart_of (snd r)) =
       Some (Item.mk _ (Item.id item) (Item.name item) (Item.price item)
               (Item.size item) (update_qty request key item))) /\
  (forall key item',
     Dict.get key (cart_of (snd r)) = Some item' ->
     exists item,
       Dict.get key (cart_of w) = Some item /\
       0 < update_qty request key item /\
       item' = Item.set_qty item (update_qty request key item)).
Proof.
  intros Hwf r.
  assert (Hc : cart_of (snd r) = update_cart_spec request (cart_of w)).
  { subst r. rewrite (update_cart_run _ _ Hwf). reflexivity. }
  rewrite Hc. subst r. rewrite (update_cart_run _ _ Hwf). simpl.
  split; [reflexivity|]. split; [reflexivity|]. split.
  - intros key item Hget Hq.
    rewrite (update_cart_spec_get request _ key item Hwf Hget).
    destruct (update_qty request key item <=? 0) eqn:E; [|reflexivity].
    apply Z.leb_le in E. lia.
  - intros key item' Hget'.
    pose proof (dict_get_some_in _ _ _ Hget') as Hin.
    apply update_cart_spec_keys in Hin.
    destruct (Dict.get key (cart_of w)) as [item|] eqn:Hget.
    + exists item. rewrite (update_cart_spec_get request _ key item Hwf Hget) in Hget'.
      destruct (update_qty request key item <=? 0) eqn:E; [discriminate|].
      apply Z.leb_gt in E. split; [reflexivity|]. split; [exact E|congruence].
    + apply dict_get_none in Hget. contradiction.
Qed.

Lemma update_cart_spec_same request (c : Cart) :
  (forall key, multidict_get (Request.form request) ("qty_" ++ key) = None) ->
  Forall (fun i => 1 <= Item.qty i /\
                   int_of_str (Str.of_int (Item.qty i)) = Some (Item.qty i))
    (Dict.values c) ->
  update_cart_spec request c = c.
Proof.
  intros Hform. unfold Dict.values.
  induction c as [|[key item] c IH]; simpl; intros Hall; [reflexivity|].
  inversion Hall as [|? ? [Hq Hparse] Hrest]; subst. simpl in Hq, Hparse.
  assert (Hu : update_qty request key item = Item.qty item).
  { unfold update_qty, form_get. now rewrite Hform, Hparse. }
  rewrite Hu. destruct (Item.qty item <=? 0) eqn:E.
  - apply Z.leb_le in E. lia.
  - rewrite (IH Hrest). destruct item; reflexivity.
Qed.

(** X11: an update form that carries no quantity field leaves the cart as
    it is, when the quantities in it are at least 1 and [int] reads back
    what [str] printed of them. *)
Theorem update_cart_without_fields request w :
  Dict.wf (cart_of w) ->
  (forall key, multidict_get (Request.form request) ("qty_" ++ key) = None) ->
  Forall (fun i => 1 <= Item.qty i /\
                   int_of_str (Str.of_int (Item.qty i)) = Some (Item.qty i))
    (Dict.values (cart_of w)) ->
  cart_of (snd (run (update_cart request) w)) = cart_of w.
Proof.
  intros Hwf Hform Hall. rewrite (update_cart_run _ _ Hwf).
  unfold cart_of at 1. simpl. now apply update_cart_spec_same.
Qed.

(** X12: two adds of the same in-stock product under the same size end in
    one line item whose quantity is what the key held before (nothing, for
    a new key) plus both added quantities; the second add adds no key. *)
Theorem add_to_cart_twice product_id request1 request2 w product :
  find_product (fun p => Product.id p =? product_id) (World.db w) = Some product ->
  Product.in_stock product = true ->
  add_size request1 = add_size request2 ->
  let key := cart_key product_id (add_size request1) in
  let before := match Dict.get key (cart_of w) with
                | Some item => Item.qty item
                | None => 0
                end in
  let w1 := snd (run (add_to_cart product_id request1) w) in
  let w2 := snd (run (add_to_cart product_id request2) w1) in
  option_map Item.qty (Dict.get key (cart_of w2)) =
    Some (before + add_qty request1 + add_qty request2) /\
  Dict.keys (cart_of w2) = Dict.keys (cart_of w1).
Proof.
  intros Hfind Hstock Hsize key before w1 w2.
  assert (Hw1 : w1 = snd (run (add_to_cart product_id request1) w)) by reflexivity.
  rewrite (add_to_cart_run _ _ _ _ Hfind), Hstock in Hw1. cbv zeta in Hw1.
  fold key in Hw1. simpl in Hw1.
  assert (Hfind1 : find_product (fun p => Product.id p =? product_id) (World.db w1) =
                   Some product) by (rewrite Hw1; exact Hfind).
  assert (Hget1 : exists item1, Dict.get key (cart_of w1) = Some item1 /\
                    Item.qty item1 = before + add_qty request1).
  { rewrite Hw1. unfold cart_of at 1. simpl. subst before.
    destruct (Dict.get key (cart_of w)) as [item|].
    - eexists. split; [apply dict_get_set_eq|reflexivity].
    - eexists. split; [apply dict_get_set_eq|reflexivity]. }
  destruct Hget1 as [item1 [Hget1 Hq1]].
  subst w2. rewrite (add_to_cart_run _ _ _ _ Hfind1), Hstock. cbv zeta.
  rewrite <- Hsize. fold key. rewrite Hget1. unfold cart_of at 1 3. simpl.
  split.
  - rewrite dict_get_set_eq. simpl. now rewrite Hq1.
  - now apply dict_keys_set_present with item1.
Qed.

(** X13: [add_to_cart] for an id no product has, and the stock toggle of
    an administrator for such an id, leave store and session as they were
    and answer 404 when the id is one the store can take as a key (a
    signed integer of 64 bits), 500 when it is not. *)
Theorem unknown_product_not_found product_id request w :
  (forall p, In p (Db.products (World.db w)) -> Product.id p <> product_id) ->
  let r1 := run (add_to_cart product_id request) w in
  let r2 := run (admin_toggle_stock product_id request) w in
  let code := if sqlite_integer product_id then 404 else 500 in
  fst r1 = abort code /\
  World.db (snd r1) = World.db w /\ World.session (snd r1) = World.session w /\
  (admin_of w = true -> fst r2 = abort code) /\
  World.db (snd r2) = World.db w /\ World.session (snd r2) = World.session w /\
  (code = 404 <-> - 2 ^ 63 <= product_id < 2 ^ 63).
Proof.
  intros Hnone.
  assert (Hfind : find_product (fun p => Product.id p =? product_id) (World.db w) = None).
  { unfold find_product. destruct (find _ _) as [p|] eqn:E; [|reflexivity].
    apply find_some in E. destruct E as [Hin Hid]. apply Z.eqb_eq in Hid.
    exfalso. exact (Hnone p Hin Hid). }
  assert (Hcode : (if sqlite_integer product_id then 404 else 500) = 404 <->
                  - 2 ^ 63 <= product_id < 2 ^ 63).
  { unfold sqlite_integer.
    destruct (- 2 ^ 63 <=? product_id) eqn:E1; destruct (product_id <? 2 ^ 63) eqn:E2;
      simpl; split; intros H; try discriminate; try reflexivity;
      try (apply Z.leb_le in E1); try (apply Z.leb_gt in E1);
      try (apply Z.ltb_lt in E2); try (apply Z.ltb_ge in E2); lia. }
  simpl. rewrite (add_to_cart_not_found _ _ _ Hfind). simpl.
  repeat (split; [reflexivity|]).
  unfold admin_toggle_stock. rewrite run_bind, require_admin_redirect_run.
  destruct (admin_of w).
  - unfold Product_get_or_404. unfold_handler. rewrite Hfind.
    destruct (sqlite_integer product_id); simpl; auto.
  - simpl. split; [discriminate|]. split; [reflexivity|]. split; [reflexivity|].
    exact Hcode.
Qed.

(** *** Checkout, composed *)

Lemma find_snoc_fresh {A} (f : A -> bool) (l : list A) (x : A) :
  (forall y, In y l -> f y = false) -> f x = true ->
  find f (l ++ [x]) = Some x.
Proof.
  intros Hl Hx. induction l as [|y l IH]; simpl.
  - now rewrite Hx.
  - rewrite (Hl y (or_introl eq_refl)). apply IH. intros z Hz. apply Hl. now right.
Qed.

(** X14: the page a successful checkout redirects to shows the order just
    placed: when the cart's total can be formed and is not NaN,
    [order_success] under the new id renders the one order the checkout
    appended. *)
Theorem checkout_then_order_success request request' w total :
  Request.method request = POST ->
  cart_of w <> [] ->
  cart_total (cart_of w) = Some total ->
  float_isnan total = false ->
  form_strip request "name" "" <> "" ->
  form_strip request "email" "" <> "" ->
  form_strip request "phone" "" <> "" ->
  form_strip request "address" "" <> "" ->
  let w1 := snd (run (checkout request) w) in
  exists order,
    fst (run (checkout request) w) = redirect (order_success_url (Order.id order)) /\
    Db.orders (World.db w1) = (Db.orders (World.db w) ++ [order])%list /\
    fst (run (order_success (Order.id order) request') w1) =
      render_template (order_success_html order).
Proof.
  intros Hpost Hcart Htotal Hnan Hname Hemail Hphone Haddress w1.
  pose proof (all_fields_nonblank _ _ _ _ Hname Hemail Hphone Haddress) as Hall.
  assert (Hrun := checkout_run request w).
  destruct (cart_of w) as [|i c] eqn:Ecart; [congruence|].
  rewrite Htotal, Hpost in Hrun. cbv zeta in Hrun. rewrite Hall, Hnan in Hrun.
  match type of Hrun with _ = (redirect (order_success_url (Order.id ?o)), _) =>
    exists o end.
  subst w1. rewrite Hrun. simpl. split; [reflexivity|]. split; [reflexivity|].
  unfold order_success, Order_get_or_404. unfold_handler.
  rewrite find_snoc_fresh; [reflexivity| |simpl; apply Z.eqb_refl].
  intros o Ho. apply Z.eqb_neq. intros Heq.
  apply (next_id_fresh (map Order.id (Db.orders (World.db w)))).
  rewrite <- Heq. now apply in_map.
Qed.

(** X15: submitting the checkout form a second time after a checkout that
    placed its order (the cart's total could be formed and was not NaN)
    places no second order: the cart is empty by then, so the request is
    answered with the warning "Your cart is empty." and the redirect to
    the shop listing, and the store stays as the first submission left
    it. *)
Theorem checkout_twice request request' w total :
  Request.method request = POST ->
  cart_of w <> [] ->
  cart_total (cart_of w) = Some total ->
  float_isnan total = false ->
  form_strip request "name" "" <> "" ->
  form_strip request "email" "" <> "" ->
  form_strip request "phone" "" <> "" ->
  form_strip request "address" "" <> "" ->
  let w1 := snd (run (checkout request) w) in
  run (checkout request') w1 =
    (redirect products_view_url, flashed w1 "warning" "Your cart is empty.") /\
  List.length (Db.orders (World.db w1)) = S (List.length (Db.orders (World.db w))).
Proof.
  intros Hpost Hcart Htotal Hnan Hname Hemail Hphone Haddress w1.
  pose proof (all_fields_nonblank _ _ _ _ Hname Hemail Hphone Haddress) as Hall.
  assert (Hrun := checkout_run request w).
  destruct (cart_of w) as [|i c] eqn:Ecart; [congruence|].
  rewrite Htotal, Hpost in Hrun. cbv zeta in Hrun. rewrite Hall, Hnan in Hrun.
  assert (Hw1 : cart_of w1 = [] /\
                List.length (Db.orders (World.db w1)) =
                S (List.length (Db.orders (World.db w)))).
  { subst w1. rewrite Hrun. simpl. split; [reflexivity|].
    rewrite length_app. simpl. lia. }
  destruct Hw1 as [Hempty Hlen]. split; [|exact Hlen].
  rewrite checkout_run, Hempty. reflexivity.
Qed.

(** *** Logging in and out *)

Lemma admin_view_redirects r request w :
  admin_area r = true -> admin_of w = false ->
  run (view r request) w = (redirect admin_login_url, w).
Proof.
  intros Harea Hanon.
  destruct r; try discriminate Harea; simpl;
    unfold admin_dashboard, admin_products, admin_toggle_stock;
    rewrite run_bind, require_admin_redirect_run, Hanon; reflexivity.
Qed.

(** X16: a login POST with a known username and a verifying password
    stores the user's id in the session, flashes "Welcome, admin." and
    redirects to the dashboard; the dashboard then renders for that
    session, unless the id is 0, which [is_admin] reads as no admin. *)
Theorem admin_login_grants request request' w user :
  Request.method request = POST ->
  find (fun u => String.eqb (AdminUser.username u) (form_strip request "username" ""))
    (Db.admin_users (World.db w)) = Some user ->
  AdminUser.check_password user (form_strip request "password" "") = true ->
  let w1 := snd (run (admin_login request) w) in
  fst (run (admin_login request) w) = redirect admin_dashboard_url /\
  Session.admin_id (World.session w1) = Some (AdminUser.id user) /\
  Session.cart (World.session w1) = Session.cart (World.session w) /\
  World.db w1 = World.db w /\
  (AdminUser.id user <> 0 ->
   exists page, fst (run (admin_dashboard request') w1) = render_template page) /\
  (AdminUser.id user = 0 ->
   fst (run (admin_dashboard request') w1) = redirect admin_login_url).
Proof.
  intros Hpost Hfind Hcheck w1.
  assert (Hrun : run (admin_login request) w =
                 (redirect admin_dashboard_url,
                  flashed
                    (World.mk _ (World.db w)
                       (Session.mk _ (Session.cart (World.session w))
                          (Some (AdminUser.id user)) (Session.flashes (World.session w)))
                       (World.stmts w ++ [SELECT AdminUserT]))
                    "success" "Welcome, admin.")).
  { unfold admin_login, AdminUser_first_by_username. rewrite Hpost.
    unfold_handler. rewrite Hfind, Hcheck. reflexivity. }
  assert (Hadm : admin_of w1 = negb (AdminUser.id user =? 0)).
  { subst w1. rewrite Hrun. reflexivity. }
  assert (Hw1 : Session.admin_id (World.session w1) = Some (AdminUser.id user) /\
                Session.cart (World.session w1) = Session.cart (World.session w) /\
                World.db w1 = World.db w).
  { subst w1. rewrite Hrun. simpl. auto. }
  clearbody w1. rewrite Hrun. simpl fst.
  split; [reflexivity|]. split; [apply Hw1|]. split; [apply Hw1|].
  split; [apply Hw1|]. split.
  - intros Hid. apply Z.eqb_neq in Hid. rewrite Hid in Hadm. simpl in Hadm.
    unfold admin_dashboard. rewrite run_bind, require_admin_redirect_run, Hadm.
    unfold Product_count, Order_count, Order_count_by_status, Order_recent.
    unfold_handler. eexists. reflexivity.
  - intros Hid. apply Z.eqb_eq in Hid. rewrite Hid in Hadm. simpl in Hadm.
    pose proof (admin_view_redirects admin_dashboard_route request' w1 eq_refl Hadm)
      as Hred.
    simpl in Hred. now rewrite Hred.
Qed.

(** X17: [admin_logout] answers with the redirect to the login route from
    any session, with or without an administrator in it; afterwards no
    administrator is in the session, cart and store are as before, and
    every admin-area view redirects to the login route. *)
Theorem admin_logout_revokes r request request' w :
  let w1 := snd (run (admin_logout request) w) in
  fst (run (admin_logout request) w) = redirect admin_login_url /\
  Session.admin_id (World.session w1) = None /\
  Session.cart (World.session w1) = Session.cart (World.session w) /\
  World.db w1 = World.db w /\
  (admin_area r = true -> run (view r request') w1 = (redirect admin_login_url, w1)).
Proof.
  intros w1.
  assert (Hrun : run (admin_logout request) w =
                 (redirect admin_login_url,
                  flashed
                    (World.mk _ (World.db w)
                       (Session.mk _ (Session.cart (World.session w)) None
                          (Session.flashes (World.session w)))
                       (World.stmts w))
                    "info" "Logged out.")).
  { unfold admin_logout. unfold_handler. reflexivity. }
  assert (Hw1 : Session.admin_id (World.session w1) = None /\
                Session.cart (World.session w1) = Session.cart (World.session w) /\
                World.db w1 = World.db w /\ admin_of w1 = false).
  { subst w1. rewrite Hrun. simpl. auto. }
  clearbody w1. rewrite Hrun. simpl fst.
  split; [reflexivity|]. split; [apply Hw1|]. split; [apply Hw1|].
  split; [apply Hw1|].
  intros Harea. apply admin_view_redirects; [exact Harea|apply Hw1].
Qed.

(** *** Managing products *)

Lemma insert_desc_below_head {A} (key : A -> Z) x p t :
  key x <= key p -> insert_desc key x (p :: t) = p :: insert_desc key x t.
Proof.
  intros H. simpl. destruct (key p <? key x) eqn:E; [|reflexivity].
  apply Z.ltb_lt in E. lia.
Qed.

Lemma order_by_desc_snoc_max {A} (key : A -> Z) l p :
  (forall x, In x l -> key x <= key p) ->
  order_by_desc key (l ++ [p]) = p :: order_by_desc key l.
Proof.
  unfold order_by_desc. intros Hmax. rewrite fold_right_app. simpl.
  induction l as [|x l IH]; simpl; [reflexivity|].
  rewrite IH by (intros y Hy; apply Hmax; now right).
  apply insert_desc_below_head. apply Hmax. now left.
Qed.

Lemma filter_all {A} (l : list A) : filter (fun _ => true) l = l.
Proof.
  induction l as [|x l IH]; simpl; [reflexivity|now rewrite IH].
Qed.

Lemma admin_products_admin_run request w :
  admin_of w = true ->
  run (admin_products request) w =
  match match Request.method request with
        | POST => admin_products_post request w
        | GET => (inl tt, w)
        end with
  | (inl _, w1) =>
      (render_template
         (admin_products_html (order_by_desc Product.id (Db.products (World.db w1)))),
       queried w1 (SELECT ProductT))
  | (inr code, w1) => (abort code, w1)
  end.
Proof.
  intros Hadmin. unfold admin_products.
  rewrite run_bind, require_admin_redirect_run, Hadmin, run_bind.
  destruct (Request.method request).
  - unfold Product_filter_by_id_desc. unfold_handler. now rewrite filter_all.
  - destruct (admin_products_post request w) as [[u|code] w1]; [|reflexivity].
    unfold Product_filter_by_id_desc. unfold_handler. now rewrite filter_all.
Qed.

(** X18: an add-product POST of an administrator with a blank name, a
    blank category, a price that does not parse or a price of at most 0
    creates nothing: the store stays as it was, the danger flash "Name,
    category & valid price required." is set, and the listing is rendered
    (no redirect) with the products there were. *)
Theorem admin_products_rejects request w :
  admin_of w = true ->
  Request.method request = POST ->
  form_strip request "name" "" = "" \/
  form_strip request "category" "" = "" \/
  float_of_str (form_strip request "price" "0") = None \/
  (exists price, float_of_str (form_strip request "price" "0") = Some price /\
                 float_le_0 price = true) ->
  run (admin_products request) w =
  (render_template
     (admin_products_html (order_by_desc Product.id (Db.products (World.db w)))),
   queried (flashed w "danger" "Name, category & valid price required.")
     (SELECT ProductT)).
Proof.
  intros Hadmin Hpost Hbad.
  rewrite (admin_products_admin_run _ _ Hadmin), Hpost.
  assert (Hpostrun : admin_products_post request w =
                     (inl tt, flashed w "danger" "Name, category & valid price required.")).
  { unfold admin_products_post.
    destruct (float_of_str (form_strip request "price" "0")) as [price|] eqn:Ep;
      [|reflexivity].
    destruct Hbad as [Hn|[Hc|[Hp|[price' [Hp Hle]]]]].
    - rewrite Hn. reflexivity.
    - rewrite Hc. simpl. rewrite Bool.orb_true_r. reflexivity.
    - discriminate.
    - injection Hp as <-. rewrite Hle, Bool.orb_true_r. reflexivity. }
  rewrite Hpostrun. reflexivity.
Qed.

(** X19: a valid add-product POST of an administrator, with a price that
    is a number above 0 (not NaN), stores the product under the derived
    slug, or under that slug with "-" and the timestamp behind it when the
    derived slug is taken, provided the slug so chosen is free: the row
    carries the trimmed form values, the next id, in_stock
    true and the featured flag of a non-empty checkbox value, and it heads
    the listing rendered in reply. *)
Theorem admin_products_adds request w price :
  admin_of w = true ->
  Request.method request = POST ->
  let name := form_strip request "name" "" in
  let category := form_strip request "category" "" in
  let table := Db.products (World.db w) in
  let taken s := existsb (fun p => String.eqb (Product.slug p) s) table in
  let slug := if taken (slugify name)
              then slugify name ++ "-" ++ Str.of_int (timestamp (Request.utcnow request))
              else slugify name in
  let p := Product.mk _ (next_id (map Product.id table)) name slug category price
             (form_strip request "description" "") (form_strip request "image_url" "")
             (form_strip request "sizes" "")
             true
             (match multidict_get (Request.form request) "is_featured" with
              | Some v => Str.truthy v
              | None => false
              end) in
  name <> "" ->
  category <> "" ->
  float_of_str (form_strip request "price" "0") = Some price ->
  float_le_0 price = false ->
  float_isnan price = false ->
  taken slug = false ->
  let r := run (admin_products request) w in
  fst r = render_template (admin_products_html (p :: order_by_desc Product.id table)) /\
  Db.products (World.db (snd r)) = (table ++ [p])%list /\
  Db.orders (World.db (snd r)) = Db.orders (World.db w) /\
  Session.flashes (World.session (snd r)) =
    (Session.flashes (World.session w) ++ [("success", "Product added.")])%list.
Proof.
  intros Hadmin Hpost name category table taken slug p Hname Hcat Hprice Hpos Hnan
    Hfree r.
  subst r. rewrite (admin_products_admin_run _ _ Hadmin), Hpost.
  apply truthy_nonempty in Hname, Hcat.
  assert (Hfind : match find (fun q => String.eqb (Product.slug q) (slugify name)) table
                  with Some _ => true | None => false end = taken (slugify name)).
  { subst taken. simpl. destruct (find _ table) as [q|] eqn:E.
    - apply find_some in E. symmetry. apply existsb_exists. exists q. exact E.
    - destruct (existsb _ table) eqn:Ex; [|reflexivity].
      apply existsb_exists in Ex. destruct Ex as [q [Hq Hs]].
      eapply find_none in E; [|exact Hq]. simpl in E. congruence. }
  assert (Hpostrun :
    admin_products_post request w =
    (inl tt,
     flashed
       (World.mk _ (Db.mk _ (table ++ [p]) (Db.orders (World.db w))
                      (Db.admin_users (World.db w)))
          (World.session w)
          (World.stmts w ++ [SELECT ProductT; INSERT ProductT]))
       "success" "Product added.")).
  { unfold admin_products_post, Product_first_by_slug, Product_add_commit, find_product.
    fold name category. rewrite Hprice, Hname, Hcat, Hpos. unfold_handler.
    fold table.
    assert (Hslug :
      match find (fun q => String.eqb (Product.slug q) (slugify name)) table with
      | Some _ =>
          slugify name ++ String "-" (Str.of_int (timestamp (Request.utcnow request)))
      | None => slugify name
      end = slug).
    { subst slug. rewrite <- Hfind. destruct (find _ table); reflexivity. }
    rewrite Hslug.
    change (existsb (fun p0 => String.eqb (Product.slug p0) slug) table)
      with (taken slug).
    rewrite Hfree, Hnan. unfold flashed. simpl. rewrite <- app_assoc. reflexivity. }
  rewrite Hpostrun. simpl.
  rewrite order_by_desc_snoc_max; [auto|].
  intros x Hx. subst p. simpl.
  pose proof (next_id_above (map Product.id table) (Product.id x) (in_map _ _ _ Hx)).
  lia.
Qed.

(** X26: an add-product POST of an administrator whose price reads as NaN
    passes the price check, NaN not being at most 0, and the store refuses
    the row: the request ends in a 500, the store is as before and nothing
    is flashed. *)
Theorem admin_products_nan_price request w price :
  admin_of w = true ->
  Request.method request = POST ->
  form_strip request "name" "" <> "" ->
  form_strip request "category" "" <> "" ->
  float_of_str (form_strip request "price" "0") = Some price ->
  float_le_0 price = false ->
  float_isnan price = true ->
  let r := run (admin_products request) w in
  fst r = abort 500 /\
  World.db (snd r) = World.db w /\
  World.session (snd r) = World.session w.
Proof.
  intros Hadmin Hpost Hname Hcat Hprice Hpos Hnan r.
  subst r. rewrite (admin_products_admin_run _ _ Hadmin), Hpost.
  apply truthy_nonempty in Hname, Hcat.
  assert (Hpostrun : exists stmts,
            admin_products_post request w =
            (inr 500, World.mk _ (World.db w) (World.session w) stmts)).
  { unfold admin_products_post, Product_first_by_slug, Product_add_commit.
    rewrite Hprice, Hname, Hcat, Hpos. unfold_handler.
    rewrite Hnan, Bool.orb_true_r. eexists. reflexivity. }
  destruct Hpostrun as [stmts ->]. simpl. auto.
Qed.

Lemma descending_firstn {A} (key : A -> Z) n (l : list A) :
  descending key l -> descending key (firstn n l).
Proof.
  unfold descending. revert l. induction n as [|n IH]; intros [|x l] Hs; simpl;
    try constructor.
  - apply IH. now inversion Hs.
  - inversion Hs as [|? ? Hl Hx]; subst. rewrite Forall_forall in *.
    intros y Hy. apply Hx. now apply firstn_subset in Hy.
Qed.

Lemma admin_dashboard_run request w :
  admin_of w = true ->
  let d := World.db w in
  run (admin_dashboard request) w =
  (render_template
     (admin_dashboard_html (Z.of_nat (List.length (Db.products d)))
        (Z.of_nat (List.length (Db.orders d)))
        (Z.of_nat (List.length
           (filter (fun o => String.eqb (Order.status o) "Pending") (Db.orders d))))
        (firstn 5 (order_by_desc Order.created_at (Db.orders d)))),
   World.mk _ d (World.session w)
     ((((World.stmts w ++ [SELECT ProductT]) ++ [SELECT OrderT]) ++ [SELECT OrderT])
      ++ [SELECT OrderT])).
Proof.
  intros Hadmin d. unfold admin_dashboard.
  rewrite run_bind, require_admin_redirect_run, Hadmin.
  reflexivity.
Qed.

(** X20: for an administrator the dashboard shows the number of products,
    the number of orders, a pending count that counts the orders with
    status "Pending" and so is at most the number of orders, and at most
    five orders of the table, newest first; nothing is written. *)
Theorem admin_dashboard_summary request w :
  admin_of w = true ->
  let d := World.db w in
  exists pending recent,
    fst (run (admin_dashboard request) w) =
      render_template
        (admin_dashboard_html (Z.of_nat (List.length (Db.products d)))
           (Z.of_nat (List.length (Db.orders d))) pending recent) /\
    pending = Z.of_nat (List.length
                (filter (fun o => String.eqb (Order.status o) "Pending") (Db.orders d))) /\
    0 <= pending <= Z.of_nat (List.length (Db.orders d)) /\
    (List.length recent <= 5)%nat /\
    descending Order.created_at recent /\
    (forall o, In o recent -> In o (Db.orders d)) /\
    World.db (snd (run (admin_dashboard request) w)) = d /\
    World.session (snd (run (admin_dashboard request) w)) = World.session w.
Proof.
  intros Hadmin d. rewrite (admin_dashboard_run _ _ Hadmin). fold d.
  eexists. eexists. split; [reflexivity|]. split; [reflexivity|].
  split; [|split; [apply firstn_le_length|split; [|split; [|split; reflexivity]]]].
  - split; [lia|]. apply Nat2Z.inj_le. apply filter_length_le.
  - apply descending_firstn, order_by_desc_sorted.
  - intros o Ho. apply firstn_subset in Ho.
    eapply Permutation_in; [apply order_by_desc_perm|exact Ho].
Qed.

(** *** Slugs and cart keys *)

Lemma lower_app (a b : string) : Str.lower (a ++ b) = Str.lower a ++ Str.lower b.
Proof.
  induction a as [|c a IH]; simpl; [reflexivity|now rewrite IH].
Qed.

Lemma slugify_app (a b : string) : slugify (a ++ b) = slugify a ++ slugify b.
Proof.
  unfold slugify. now rewrite lower_app, !replace_app.
Qed.

Lemma slug_char_fixed (c : ascii) : slugify (slug_char c) = slug_char c.
Proof.
  destruct c as [[] [] [] [] [] [] [] []]; reflexivity.
Qed.

Lemma slug_char_clean (c : ascii) :
  Forall (fun x => x <> " "%char /\ x <> "/"%char /\ x <> "&"%char /\
                   Str.lower_char x = x)
    (list_ascii_of_string (slug_char c)).
Proof.
  destruct c as [[] [] [] [] [] [] [] []];
    repeat constructor; discriminate.
Qed.

Lemma list_ascii_app (a b : string) :
  list_ascii_of_string (a ++ b) =
  (list_ascii_of_string a ++ list_ascii_of_string b)%list.
Proof.
  induction a as [|c a IH]; simpl; [reflexivity|now rewrite IH].
Qed.

(** X21: a slug holds no space, no slash, no ampersand and no uppercase
    ASCII letter, and [slugify] leaves a slug as it is: slugifying twice
    gives what slugifying once gives. *)
Theorem slugify_clean_and_idempotent text :
  Forall (fun x => x <> " "%char /\ x <> "/"%char /\ x <> "&"%char /\
                   Str.lower_char x = x)
    (list_ascii_of_string (slugify text)) /\
  slugify (slugify text) = slugify text.
Proof.
  induction text as [|c s IH]; [split; [constructor|reflexivity]|].
  destruct IH as [IHclean IHidem]. rewrite slugify_cons, slugify_char. split.
  - rewrite list_ascii_app. apply Forall_app. split; [apply slug_char_clean|assumption].
  - now rewrite slugify_app, slug_char_fixed, IHidem.
Qed.

Lemma uint_digits_no_hyphen d :
  ~ In "-"%char (list_ascii_of_string (NilEmpty.string_of_uint d)).
Proof.
  induction d; simpl; try tauto; intros [H|H]; try discriminate; auto.
Qed.

Lemma of_int_no_hyphen n :
  0 <= n -> ~ In "-"%char (list_ascii_of_string (Str.of_int n)).
Proof.
  unfold Str.of_int. destruct n as [|q|q]; simpl; intros Hn.
  - intros [H|[]]. discriminate.
  - unfold NilZero.string_of_uint. destruct (Pos.to_uint q) eqn:E;
      try (rewrite <- E; apply uint_digits_no_hyphen).
    simpl. intros [H|[]]. discriminate.
  - lia.
Qed.

Lemma of_int_inj n m : Str.of_int n = Str.of_int m -> n = m.
Proof.
  unfold Str.of_int. intros H. apply DecimalZ.to_int_inj.
  assert (Hnn : forall z, Z.to_int z <> Decimal.Pos Decimal.Nil /\
                          Z.to_int z <> Decimal.Neg Decimal.Nil).
  { intros [|q|q]; simpl; split; try discriminate; intros [= Hq];
      now apply DecimalPos.Unsigned.to_uint_nonnil in Hq. }
  pose proof (NilZero.isi (Z.to_int n) (proj1 (Hnn n)) (proj2 (Hnn n))) as Hn.
  pose proof (NilZero.isi (Z.to_int m) (proj1 (Hnn m)) (proj2 (Hnn m))) as Hm.
  rewrite H in Hn. congruence.
Qed.

Lemma split_at_hyphen (a b x y : string) :
  ~ In "-"%char (list_ascii_of_string a) ->
  ~ In "-"%char (list_ascii_of_string b) ->
  a ++ "-" ++ x = b ++ "-" ++ y -> a = b /\ x = y.
Proof.
  revert b. induction a as [|c a IH]; intros [|c' b] Ha Hb H; simpl in *.
  - injection H as ->. auto.
  - injection H as Hc _. exfalso. apply Hb. now left.
  - injection H as Hc _. exfalso. apply Ha. now left.
  - injection H as Hc Hr. subst c'. destruct (IH b) as [-> ->]; auto.
Qed.

(** X22: cart keys keep line items apart: for product ids that are not
    negative, two adds share a key only if they are for the same product
    and their sizes, with the empty size read as "nosize", are equal.  An
    empty size and the size "nosize" do share a key. *)
Theorem cart_key_separates p1 p2 s1 s2 :
  0 <= p1 -> 0 <= p2 ->
  (cart_key p1 s1 = cart_key p2 s2 <->
   p1 = p2 /\ Str.or_else s1 "nosize" = Str.or_else s2 "nosize") /\
  cart_key p1 "" = cart_key p1 "nosize".
Proof.
  intros H1 H2. split; [|reflexivity]. unfold cart_key. split.
  - intros H. apply split_at_hyphen in H; try now apply of_int_no_hyphen.
    destruct H as [Hp Hs]. split; [now apply of_int_inj|exact Hs].
  - intros [-> ->]. reflexivity.
Qed.

(** *** Cart and order pages *)

Lemma cart_run request w :
  run (cart request) w =
  match cart_total (cart_of w) with
  | Some total => (render_template (cart_html (cart_of w) total), w)
  | None => (abort 500, w)
  end.
Proof.
  unfold cart, cart_of. unfold_handler.
  destruct (cart_total _); reflexivity.
Qed.

(** X25: the order page shows the first order stored under the requested
    id; when no order has it the answer is 404 for an id the store can
    take as a key and 500 for any other.  The cart page ends in a 500
    exactly when price times quantity cannot be formed for some line item,
    and otherwise shows the session cart with the sum of those products;
    for a cart that is not empty the checkout form shows that same total
    and fails in the same case.  Neither page writes store or session. *)
Theorem order_and_cart_pages order_id request request' w :
  match fst (run (order_success order_id request) w) with
  | render_template (order_success_html o) =>
      In o (Db.orders (World.db w)) /\ Order.id o = order_id
  | abort code =>
      (forall o, In o (Db.orders (World.db w)) -> Order.id o <> order_id) /\
      code = (if sqlite_integer order_id then 404 else 500)
  | _ => False
  end /\
  World.db (snd (run (order_success order_id request) w)) = World.db w /\
  World.session (snd (run (order_success order_id request) w)) = World.session w /\
  (fst (run (cart request) w) = abort 500 <->
   Exists (fun i => float_mul_int (Item.price i) (Item.qty i) = None)
     (Dict.values (cart_of w))) /\
  (forall xs,
     Forall2 (fun i x => float_mul_int (Item.price i) (Item.qty i) = Some x)
       (Dict.values (cart_of w)) xs ->
     fst (run (cart request) w) = render_template (cart_html (cart_of w) (float_sum xs))) /\
  snd (run (cart request) w) = w /\
  (cart_of w <> [] -> Request.method request' = GET ->
   match fst (run (cart request) w) with
   | render_template (cart_html c total) =>
       run (checkout request') w = (render_template (checkout_html c total), w)
   | _ => run (checkout request') w = (abort 500, w)
   end).
Proof.
  split; [|split; [|split; [|split; [|split; [|split]]]]].
  - unfold order_success, Order_get_or_404. unfold_handler.
    destruct (find _ (Db.orders (World.db w))) as [o|] eqn:Hfind; simpl.
    + apply find_some in Hfind. destruct Hfind as [Hin Hid].
      apply Z.eqb_eq in Hid. auto.
    + assert (Hnone : forall o, In o (Db.orders (World.db w)) -> Order.id o <> order_id).
      { intros o Hin Hid. eapply find_none in Hfind; [|exact Hin]. simpl in Hfind.
        apply Z.eqb_neq in Hfind. contradiction. }
      destruct (sqlite_integer order_id); simpl; auto.
  - apply (frame_run World.db). unfold_views. frame.
  - apply (frame_run World.session). unfold_views. frame.
  - rewrite cart_run. unfold cart_total. rewrite <- line_totals_none.
    destruct (line_totals _); simpl; split; congruence.
  - intros xs Hxs. apply line_totals_some in Hxs.
    rewrite cart_run. unfold cart_total. now rewrite Hxs.
  - rewrite cart_run. destruct (cart_total _); reflexivity.
  - intros Hcart Hget. rewrite cart_run, checkout_run.
    destruct (cart_of w) as [|i c]; [congruence|].
    destruct (cart_total (i :: c)); simpl; [|reflexivity]. now rewrite Hget.
Qed.

(** *** Start-up *)

Context `{SD : !Seeding}.

Lemma find_existsb {A} (f : A -> bool) (l : list A) :
  existsb f l = match find f l with Some _ => true | None => false end.
Proof.
  induction l as [|x l IH]; simpl; [reflexivity|].
  destruct (f x); [reflexivity|exact IH].
Qed.

Lemma ensure_default_admin_run w :
  ensure_default_admin w =
  (inl tt,
   let d := World.db w in
   if existsb (fun u => String.eqb (AdminUser.username u) "admin") (Db.admin_users d)
   then queried w (SELECT AdminUserT)
   else
     World.mk _
       (Db.mk _ (Db.products d) (Db.orders d)
          (Db.admin_users d ++
           [AdminUser.mk (next_id (map AdminUser.id (Db.admin_users d))) "admin"
              (generate_password_hash "nokshi123")]))
       (World.session w)
       (World.stmts w ++ [SELECT AdminUserT; INSERT AdminUserT])).
Proof.
  unfold ensure_default_admin, AdminUser_first_by_username, AdminUser_add_commit,
    set_password, queried.
  unfold_handler. cbv zeta.
  pose proof (find_existsb (fun u => String.eqb (AdminUser.username u) "admin")
                (Db.admin_users (World.db w))) as Hex.
  destruct (find _ (Db.admin_users (World.db w))); rewrite Hex; [reflexivity|].
  simpl. now rewrite Hex, <- app_assoc.
Qed.

Lemma ensure_sample_products_run w :
  ensure_sample_products w =
  (inl tt,
   let d := World.db w in
   match Db.products d with
   | [] =>
       World.mk _
         (Db.mk _
            [Product.mk _ 1 "Nokshi Handloom Saree" "nokshi-handloom-saree" "Saree"
               float_65 "Beautiful saree from Nokshi." "/static/images/placeholder.jpg"
               "" true true;
             Product.mk _ 2 "Embroidered Salwar Kameez" "embroidered-salwar-kameez"
               "Salwar" float_55 "Beautiful salwar from Nokshi."
               "/static/images/placeholder.jpg" "S,M,L,XL" true true]
            (Db.orders d) (Db.admin_users d))
         (World.session w)
         (World.stmts w ++ [SELECT ProductT; INSERT ProductT; INSERT ProductT])
   | _ :: _ => queried w (SELECT ProductT)
   end).
Proof.
  destruct w as [[products orders admins] session stmts].
  unfold ensure_sample_products, Product_count, Product_add_all_commit, queried,
    bind, ret, select.
  assert (Hins : insert_products (map sample_product demo) [] =
                 Some [Product.mk _ 1 "Nokshi Handloom Saree" "nokshi-handloom-saree"
                         "Saree" float_65 "Beautiful saree from Nokshi."
                         "/static/images/placeholder.jpg" "" true true;
                       Product.mk _ 2 "Embroidered Salwar Kameez"
                         "embroidered-salwar-kameez" "Salwar" float_55
                         "Beautiful salwar from Nokshi."
                         "/static/images/placeholder.jpg" "S,M,L,XL" true true]).
  { unfold demo. cbn [map insert_products sample_product Product.price existsb orb].
    rewrite float_65_number.
    cbn [app map existsb orb Product.slug Product.price].
    rewrite float_55_number, Bool.orb_false_r. reflexivity. }
  destruct products as [|p ps].
  - cbn [World.db World.session World.stmts Db.products Db.orders Db.admin_users
         List.length fst snd Z.of_nat Z.eqb].
    rewrite Hins. cbn [map demo]. now rewrite <- app_assoc.
  - cbn [World.db Db.products List.length fst snd]. rewrite Nat2Z.inj_succ.
    destruct (Z.succ (Z.of_nat (List.length ps)) =? 0) eqn:Ez; [|reflexivity].
    apply Z.eqb_eq in Ez. lia.
Qed.

(** X23: start-up never fails and can be run again without effect on the
    store: afterwards a user named "admin" exists, an existing "admin" or
    a catalogue that is not empty is left as it was, and a second start-up
    changes nothing in the store. *)
Theorem startup_idempotent w :
  let w1 := snd (startup w) in
  fst (startup w) = inl tt /\
  existsb (fun u => String.eqb (AdminUser.username u) "admin")
    (Db.admin_users (World.db w1)) = true /\
  Db.products (World.db w1) <> [] /\
  (existsb (fun u => String.eqb (AdminUser.username u) "admin")
     (Db.admin_users (World.db w)) = true ->
   Db.admin_users (World.db w1) = Db.admin_users (World.db w)) /\
  (Db.products (World.db w) <> [] ->
   Db.products (World.db w1) = Db.products (World.db w)) /\
  Db.orders (World.db w1) = Db.orders (World.db w) /\
  World.session w1 = World.session w /\
  World.db (snd (startup w1)) = World.db w1.
Proof.
  assert (Hrun : forall w0, startup w0 =
            (inl tt, snd (ensure_sample_products (snd (ensure_default_admin w0))))).
  { intros w0. unfold startup, bind.
    assert (Ha : fst (ensure_default_admin w0) = inl tt)
      by now rewrite ensure_default_admin_run.
    destruct (ensure_default_admin w0) as [[[]|code] a]; [|discriminate Ha]. simpl.
    assert (Hb : fst (ensure_sample_products a) = inl tt)
      by now rewrite ensure_sample_products_run.
    destruct (ensure_sample_products a) as [[[]|code] b]; [|discriminate Hb].
    reflexivity. }
  assert (Hadm : forall w0,
    let a := snd (ensure_default_admin w0) in
    existsb (fun u => String.eqb (AdminUser.username u) "admin")
      (Db.admin_users (World.db a)) = true /\
    (existsb (fun u => String.eqb (AdminUser.username u) "admin")
       (Db.admin_users (World.db w0)) = true -> World.db a = World.db w0) /\
    Db.products (World.db a) = Db.products (World.db w0) /\
    Db.orders (World.db a) = Db.orders (World.db w0) /\
    World.session a = World.session w0).
  { intros w0. rewrite ensure_default_admin_run. simpl.
    destruct (existsb _ (Db.admin_users (World.db w0))) eqn:E; simpl.
    - auto.
    - split; [|split; [discriminate|auto]].
      rewrite existsb_app. simpl. apply Bool.orb_true_r. }
  assert (Hprod : forall w0,
    let b := snd (ensure_sample_products w0) in
    Db.products (World.db b) <> [] /\
    (Db.products (World.db w0) <> [] -> World.db b = World.db w0) /\
    Db.admin_users (World.db b) = Db.admin_users (World.db w0) /\
    Db.orders (World.db b) = Db.orders (World.db w0) /\
    World.session b = World.session w0).
  { intros w0. rewrite ensure_sample_products_run. simpl.
    destruct (Db.products (World.db w0)) as [|p ps] eqn:E; simpl.
    - split; [discriminate|]. split; [congruence|auto].
    - rewrite E. split; [discriminate|auto]. }
  intros w1. subst w1. rewrite !Hrun. simpl.
  destruct (Hadm w) as (Ha1 & Ha2 & Ha3 & Ha4 & Ha5).
  set (a := snd (ensure_default_admin w)) in *.
  destruct (Hprod a) as (Hb1 & Hb2 & Hb3 & Hb4 & Hb5).
  set (b := snd (ensure_sample_products a)) in *.
  split; [reflexivity|]. split; [now rewrite Hb3|]. split; [exact Hb1|].
  split; [intros Hex; rewrite Hb3; now rewrite (Ha2 Hex)|].
  split; [intros Hne; rewrite <- Ha3 in Hne; rewrite (Hb2 Hne); exact Ha3|].
  split; [congruence|]. split; [congruence|].
  destruct (Hadm b) as (_ & Hc2 & _).
  rewrite <- Hb3 in Ha1. specialize (Hc2 Ha1).
  set (c := snd (ensure_default_admin b)) in *.
  destruct (Hprod c) as (_ & Hd2 & _).
  rewrite Hd2; [exact Hc2|]. now rewrite Hc2.
Qed.

(** X24: on an empty store start-up seeds the two sample products, in
    stock and featured, under the slugs [slugify] gives their names, and
    one administrator "admin" with id 1; when the stored hash verifies the
    default password, a login with it is accepted and the dashboard opens
    for that session. *)
Theorem startup_on_empty_store session stmts request :
  let w1 := snd (startup (World.mk _ (Db.mk _ [] [] []) session stmts)) in
  let login := Request.mk POST [] [("username", "admin"); ("password", "nokshi123")]
                 (Request.utcnow request) in
  map (fun p => (Product.id p, Product.name p, Product.slug p, Product.category p,
                 Product.sizes p, Product.in_stock p, Product.is_featured p))
    (Db.products (World.db w1)) =
    [(1, "Nokshi Handloom Saree", slugify "Nokshi Handloom Saree", "Saree", "",
      true, true);
     (2, "Embroidered Salwar Kameez", slugify "Embroidered Salwar Kameez", "Salwar",
      "S,M,L,XL", true, true)] /\
  map Product.price (Db.products (World.db w1)) = [float_65; float_55] /\
  Db.admin_users (World.db w1) =
    [AdminUser.mk 1 "admin" (generate_password_hash "nokshi123")] /\
  Db.orders (World.db w1) = [] /\
  (check_password_hash (generate_password_hash "nokshi123") "nokshi123" = true ->
   fst (run (admin_login login) w1) = redirect admin_dashboard_url /\
   admin_of (snd (run (admin_login login) w1)) = true).
Proof.
  intros w1 login.
  assert (Hw1 : w1 =
    World.mk _
      (Db.mk _
         [Product.mk _ 1 "Nokshi Handloom Saree" "nokshi-handloom-saree" "Saree"
            float_65 "Beautiful saree from Nokshi." "/static/images/placeholder.jpg"
            "" true true;
          Product.mk _ 2 "Embroidered Salwar Kameez" "embroidered-salwar-kameez"
            "Salwar" float_55 "Beautiful salwar from Nokshi."
            "/static/images/placeholder.jpg" "S,M,L,XL" true true]
         []
         [AdminUser.mk 1 "admin" (generate_password_hash "nokshi123")])
      session
      ((stmts ++ [SELECT AdminUserT; INSERT AdminUserT]) ++
       [SELECT ProductT; INSERT ProductT; INSERT ProductT])).
  { subst w1. unfold startup, bind.
    rewrite ensure_default_admin_run, ensure_sample_products_run. reflexivity. }
  clearbody w1. subst w1. simpl.
  repeat (split; [reflexivity|]).
  intros Hcheck. unfold admin_login, AdminUser_first_by_username, AdminUser.check_password.
  unfold_handler.
  change (form_strip login "password" "") with "nokshi123".
  rewrite Hcheck. simpl. auto.
Qed.

End AppFacts.

(** ** The handlers run on the sample store *)

Section Sample.
Local Existing Instance Demo.PF.
Local Existing Instance Demo.EX.

(** C3: three add-product submissions of the name "Silk Saree", the last
    two within one second.  The first gets the slug "silk-saree", the
    second "silk-saree-1700000000"; the third derives that same suffixed
    slug, the store refuses it, the request ends in a 500 and no third
    product exists. *)
Theorem add_product_suffix_collision :
  let t := 1700000000 * 1000000 in
  let w2 := serve_all
              [(admin_products_route, Demo.add_silk_saree (t - 5000000));
               (admin_products_route, Demo.add_silk_saree (t + 100000))]
              Demo.w_admin in
  let r3 := serve admin_products_route
              (Demo.add_silk_saree (t + 900000)) w2 in
  map Product.slug (Db.products (World.db w2)) =
    ["embroidered-salwar-kameez"; "nokshi-handloom-saree"; "kantha-shawl";
     "silk-saree"; "silk-saree-1700000000"] /\
  fst r3 = abort 500 /\
  Db.products (World.db (snd r3)) = Db.products (World.db w2).
Proof.
  intros t w2 r3. repeat split; reflexivity.
Qed.

(** The cart keys and the cart total of the specification's examples. *)
Example cart_key_examples :
  cart_key 5 "M" = "5-M" /\ cart_key 7 "" = "7-nosize".
Proof. split; reflexivity. Qed.

Example cart_total_example :
  cart_total [("7-nosize", Item.mk Demo.PF 7 "Nokshi Handloom Saree" 65 "" 2);
              ("5-M", Item.mk Demo.PF 5 "Embroidered Salwar Kameez" 55 "M" 1)] =
  Some 185.
Proof. reflexivity. Qed.

(** Start-up on an empty store, then the default administrator logging
    in. *)
Example startup_example :
  let w1 := snd (startup (SD := Demo.SD)
                   (World.mk Demo.PF (Db.mk Demo.PF [] [] []) Session.empty [])) in
  map Product.slug (Db.products (World.db w1)) =
    ["nokshi-handloom-saree"; "embroidered-salwar-kameez"] /\
  map Product.price (Db.products (World.db w1)) = [65; 55] /\
  Db.admin_users (World.db w1) = [Demo.admin] /\
  fst (run (admin_login Demo.login) w1) = redirect admin_dashboard_url.
Proof. repeat split; reflexivity. Qed.

(** An update that zeroes one line and rewrites the other. *)
Example update_cart_example :
  cart_of (snd (run (update_cart
                       (Demo.update_form [("qty_5-M", "0"); ("qty_7-nosize", "4")]))
                  Demo.w_cart)) =
  [("7-nosize", Item.mk Demo.PF 7 "Nokshi Handloom Saree" 65 "" 4)].
Proof. reflexivity. Qed.

Lemma add_to_cart_out_of_stock_witness :
  let request := Demo.post [("size", "M"); ("qty", "2")] 0 in
  let r := run (add_to_cart 9 request) Demo.w0 in
  fst r = redirect products_view_url /\
  Session.cart (World.session (snd r)) = None /\
  Session.flashes (World.session (snd r)) = [("warning", "This item is out of stock.")].
Proof.
  destruct (add_to_cart_out_of_stock 9
              (Demo.post [("size", "M"); ("qty", "2")] 0) Demo.w0 Demo.shawl
              eq_refl eq_refl) as (Hr & Hc & Hf & _).
  repeat split; assumption.
Defined.

Lemma checkout_success_witness :
  let r := run (checkout (Demo.checkout_form "rahima@example.com")) Demo.w_cart in
  exists order,
    fst r = redirect (order_success_url (Order.id order)) /\
    Db.orders (World.db (snd r)) = [order] /\
    Order.total_price order = 180 /\
    Order.status order = "Pending" /\
    Order.created_at order = 1700000000000000 /\
    Session.cart (World.session (snd r)) = Some [].
Proof.
  destruct (checkout_success (Demo.checkout_form "rahima@example.com") Demo.w_cart 180
              eq_refl) as (order & Hr & Ho & Ht & _ & Hs & Hc & Hcart & _);
    try discriminate; try reflexivity.
  exists order. repeat split; assumption.
Defined.

(** C1 as first stated fails on a cart with a quantity too large to
    convert to a float: the visitor adds the saree with a quantity field of
    401 digits, and the checkout with every field filled in ends in a 500,
    places no order and leaves the cart as it was.  It fails as well where
    the total is NaN: the store refuses the order. *)
Lemma checkout_success_counterexample :
  let request := Demo.checkout_form "rahima@example.com" in
  let r := run (checkout request) Demo.w_huge in
  let rn := @run Demo.PFn (@checkout Demo.PFn Demo.EXn request) Demo.w_nan in
  (Request.method request = POST /\
   form_strip request "name" "" = "Rahima Begum" /\
   form_strip request "email" "" = "rahima@example.com" /\
   form_strip request "phone" "" = "01700000000" /\
   form_strip request "address" "" = "12 Lake Road, Dhaka") /\
  (cart_of Demo.w_huge =
     [("7-nosize", Item.mk Demo.PF 7 "Nokshi Handloom Saree" 65 "" (10 ^ 400))] /\
   fst r = abort 500 /\
   Db.orders (World.db (snd r)) = [] /\
   cart_of (snd r) = cart_of Demo.w_huge) /\
  (fst rn = abort 500 /\
   Db.orders (World.db (snd rn)) = [] /\
   Session.cart (World.session (snd rn)) = Session.cart (World.session Demo.w_nan)).
Proof.
  repeat split; reflexivity.
Qed.

Lemma checkout_guard_witness :
  run (checkout Demo.get) Demo.w0 =
    (redirect products_view_url, flashed Demo.w0 "warning" "Your cart is empty.") /\
  run (checkout (Demo.checkout_form "  ")) Demo.w_cart =
    (redirect checkout_url, flashed Demo.w_cart "danger" "Please fill in all fields.") /\
  run (checkout (Demo.checkout_form "  ")) Demo.w_huge = (abort 500, Demo.w_huge).
Proof.
  split; [|split].
  - exact (proj1 (proj2 (checkout_guard Demo.get Demo.w0)) eq_refl).
  - refine (proj2 (proj2 (checkout_guard (Demo.checkout_form "  ") Demo.w_cart))
              _ eq_refl (or_intror (or_introl eq_refl))).
    discriminate.
  - assert (Hkeys : Dict.keys (cart_of Demo.w_huge) = ["7-nosize"]) by reflexivity.
    assert (Hcart : cart_of Demo.w_huge <> []).
    { intros Hnil. rewrite Hnil in Hkeys. discriminate Hkeys. }
    assert (Hnone : cart_total (cart_of Demo.w_huge) = None) by reflexivity.
    pose proof (proj2 (proj2 (checkout_guard (Demo.checkout_form "  ") Demo.w_huge))
                  Hcart eq_refl (or_intror (or_introl eq_refl))) as H.
    rewrite Hnone in H. exact H.
Defined.

(** C2 as first stated fails on the same cart: with the e-mail field
    blank the checkout POST ends in a 500 before the fields are looked at,
    so no danger message is flashed and no redirect to the checkout route
    is made. *)
Lemma checkout_guard_counterexample :
  let request := Demo.checkout_form "  " in
  let r := run (checkout request) Demo.w_huge in
  Request.method request = POST /\
  form_strip request "email" "" = "" /\
  cart_of Demo.w_huge =
    [("7-nosize", Item.mk Demo.PF 7 "Nokshi Handloom Saree" 65 "" (10 ^ 400))] /\
  r = (abort 500, Demo.w_huge) /\
  fst r <> redirect checkout_url /\
  Session.flashes (World.session (snd r)) = [("success", "Added to cart.")].
Proof.
  intros request r.
  assert (Hr : fst r = abort 500) by reflexivity.
  repeat split; try reflexivity.
  rewrite Hr. discriminate.
Qed.


Lemma add_to_cart_line_item_witness :
  let w1 := snd (serve (add_to_cart_route 5) (Demo.add_kameez "2") Demo.w0) in
  let cart2 := cart_of (snd (run (add_to_cart 5 (Demo.add_kameez "3")) w1)) in
  Dict.keys (cart_of w1) = ["5-M"] /\
  Dict.keys cart2 = ["5-M"] /\
  Dict.get "5-M" cart2 = Some (Item.mk Demo.PF 5 "Embroidered Salwar Kameez" 55 "M" 5).
Proof.
  intros w1 cart2.
  assert (Hwf : Dict.wf (cart_of w1)).
  { vm_compute. repeat constructor. simpl. tauto. }
  destruct (add_to_cart_line_item 5 (Demo.add_kameez "3") w1 Demo.kameez
              eq_refl eq_refl Hwf) as (_ & _ & _ & Hitem).
  change (Dict.get (cart_key 5 (add_size (Demo.add_kameez "3"))) (cart_of w1))
    with (Some (Item.mk Demo.PF 5 "Embroidered Salwar Kameez" 55 "M" 2)) in Hitem.
  destruct Hitem as [Hget Hkeys].
  split; [reflexivity|]. split; [exact Hkeys|exact Hget].
Defined.

Lemma add_to_cart_existing_key_witness :
  let cart' := cart_of (snd (run (add_to_cart 5 (Demo.add_kameez "3")) Demo.w_cart)) in
  Dict.get "5-M" cart' = Some (Item.mk Demo.PF 5 "Salwar Kameez" 50 "M" 4) /\
  Dict.get "7-nosize" cart' = Dict.get "7-nosize" Demo.cart0.
Proof.
  intros cart'.
  destruct (add_to_cart_existing_key 5 (Demo.add_kameez "3") Demo.w_cart Demo.kameez
              (Item.mk Demo.PF 5 "Salwar Kameez" 50 "M" 1) eq_refl eq_refl eq_refl)
    as (Hget & Hframe & _).
  split; [exact Hget|]. apply Hframe. discriminate.
Defined.

Lemma admin_gate_witness :
  run (admin_dashboard Demo.get) Demo.w0 = (redirect admin_login_url, Demo.w0) /\
  run (admin_products (Demo.add_silk_saree 0)) Demo.w0 =
    (redirect admin_login_url, Demo.w0) /\
  run (admin_toggle_stock 5 Demo.get) Demo.w0 = (redirect admin_login_url, Demo.w0).
Proof.
  split; [|split].
  - exact (proj1 (admin_gate admin_dashboard_route Demo.get Demo.w0 eq_refl eq_refl)).
  - exact (proj1 (admin_gate admin_products_route (Demo.add_silk_saree 0) Demo.w0
                    eq_refl eq_refl)).
  - exact (proj1 (admin_gate (admin_toggle_stock_route 5) Demo.get Demo.w0
                    eq_refl eq_refl)).
Defined.

Lemma admin_login_failure_uniform_witness :
  let unknown := Demo.post [("username", "nobody"); ("password", "nokshi123")] 0 in
  let wrong := Demo.post [("username", "admin"); ("password", "letmein")] 0 in
  run (admin_login unknown) Demo.w0 = run (admin_login wrong) Demo.w0 /\
  Session.admin_id (World.session (snd (run (admin_login wrong) Demo.w0))) = None.
Proof.
  intros unknown wrong.
  destruct (admin_login_failure_uniform unknown wrong Demo.w0 Demo.admin)
    as (Hsame & _ & Hid); try reflexivity.
  split; [exact Hsame|exact Hid].
Defined.


Lemma anonymous_keeps_catalogue_witness :
  Db.products
    (World.db (snd (serve admin_products_route (Demo.add_silk_saree 0) Demo.w0))) =
  Db.products Demo.db0.
Proof.
  exact (proj1 (anonymous_keeps_catalogue admin_products_route (Demo.add_silk_saree 0)
                  Demo.w0 eq_refl)).
Defined.

Lemma store_keys_stay_unique_witness :
  store_inv
    (World.db
       (serve_all [(admin_products_route, Demo.add_silk_saree 1700000000000000);
                   (checkout_route, Demo.checkout_form "rahima@example.com");
                   (admin_toggle_stock_route 5, Demo.get)]
          Demo.w_admin)).
Proof.
  apply store_keys_stay_unique.
  repeat split; repeat constructor; simpl; intuition discriminate.
Defined.

Lemma toggle_stock_twice_witness :
  let w1 := snd (run (admin_toggle_stock 5 Demo.get) Demo.w_admin) in
  option_map Product.in_stock
    (find_product (fun p => Product.id p =? 5) (World.db w1)) = Some false /\
  World.db (snd (run (admin_toggle_stock 5 Demo.get) w1)) = Demo.db0.
Proof.
  intros w1.
  destruct (toggle_stock_twice 5 Demo.get Demo.get Demo.w_admin Demo.kameez eq_refl)
    as [Hfirst Hback]; [repeat constructor; simpl; intuition discriminate|reflexivity|].
  split; [|exact Hback]. subst w1. rewrite Hfirst. reflexivity.
Defined.

Lemma toggle_stock_hides_witness :
  let w1 := snd (run (admin_toggle_stock 5 Demo.get) Demo.w_admin) in
  fst (run (product_detail "embroidered-salwar-kameez" Demo.get) w1) = abort 404.
Proof.
  intros w1.
  destruct (toggle_stock_hides 5 Demo.get Demo.get Demo.w_admin Demo.kameez eq_refl)
    as [Hhidden _];
    [repeat constructor; simpl; intuition discriminate|reflexivity|reflexivity|].
  exact Hhidden.
Defined.

Lemma update_cart_line_items_witness :
  let request := Demo.update_form [("qty_7-nosize", "4"); ("qty_5-M", "0")] in
  let r := run (update_cart request) Demo.w_cart in
  fst r = redirect cart_url /\
  Dict.get "7-nosize" (cart_of (snd r)) =
    Some (Item.mk Demo.PF 7 "Nokshi Handloom Saree" 65 "" 4).
Proof.
  intros request r.
  destruct (update_cart_line_items request Demo.w_cart) as (Hr & _ & Hkeep & _);
    [repeat constructor; simpl; intuition discriminate|].
  split; [exact Hr|].
  apply (Hkeep "7-nosize" (Item.mk Demo.PF 7 "Nokshi Handloom Saree" 65 "" 2));
    reflexivity.
Defined.

Lemma update_cart_without_fields_witness :
  cart_of (snd (run (update_cart (Demo.update_form [])) Demo.w_cart)) = Demo.cart0.
Proof.
  apply (update_cart_without_fields (Demo.update_form []) Demo.w_cart).
  - repeat constructor; simpl; intuition discriminate.
  - intros key. reflexivity.
  - repeat constructor; simpl; discriminate.
Defined.

Lemma add_to_cart_twice_witness :
  let w1 := snd (run (add_to_cart 5 (Demo.add_kameez "2")) Demo.w0) in
  let w2 := snd (run (add_to_cart 5 (Demo.add_kameez "3")) w1) in
  option_map Item.qty (Dict.get "5-M" (cart_of w2)) = Some 5 /\
  Dict.keys (cart_of w2) = ["5-M"].
Proof.
  intros w1 w2.
  destruct (add_to_cart_twice 5 (Demo.add_kameez "2") (Demo.add_kameez "3") Demo.w0
              Demo.kameez eq_refl eq_refl eq_refl) as [Hqty Hkeys].
  split; [exact Hqty|exact Hkeys].
Defined.

Lemma unknown_product_not_found_witness :
  fst (run (add_to_cart 42 (Demo.add_kameez "1")) Demo.w0) = abort 404 /\
  fst (run (admin_toggle_stock 42 Demo.get) Demo.w_admin) = abort 404.
Proof.
  assert (Hnone : forall w, World.db w = Demo.db0 ->
            forall p, In p (Db.products (World.db w)) -> Product.id p <> 42).
  { intros w -> p [<-|[<-|[<-|[]]]]; discriminate. }
  split.
  - exact (proj1 (unknown_product_not_found 42 (Demo.add_kameez "1") Demo.w0
                    (Hnone Demo.w0 eq_refl))).
  - destruct (unknown_product_not_found 42 Demo.get Demo.w_admin
                (Hnone Demo.w_admin eq_refl)) as (_ & _ & _ & Hadmin & _).
    exact (Hadmin eq_refl).
Defined.

(** The same two requests for the id 2^63, which no row can have. *)
Example unknown_product_beyond_64_bits :
  fst (run (add_to_cart (2 ^ 63) (Demo.add_kameez "1")) Demo.w0) = abort 500 /\
  fst (run (admin_toggle_stock (2 ^ 63) Demo.get) Demo.w_admin) = abort 500 /\
  fst (run (order_success (2 ^ 63) Demo.get) Demo.w0) = abort 500.
Proof. repeat split; reflexivity. Qed.

Lemma checkout_then_order_success_witness :
  let w1 := snd (run (checkout (Demo.checkout_form "rahima@example.com")) Demo.w_cart) in
  exists order,
    Db.orders (World.db w1) = [order] /\
    fst (run (order_success (Order.id order) Demo.get) w1) =
      render_template (order_success_html order).
Proof.
  destruct (checkout_then_order_success (Demo.checkout_form "rahima@example.com")
              Demo.get Demo.w_cart 180 eq_refl) as (order & _ & Ho & Hpage);
    try discriminate; try reflexivity.
  exists order. split; [exact Ho|exact Hpage].
Defined.

Lemma checkout_twice_witness :
  let request := Demo.checkout_form "rahima@example.com" in
  let w1 := snd (run (checkout request) Demo.w_cart) in
  fst (run (checkout request) w1) = redirect products_view_url /\
  List.length (Db.orders (World.db (snd (run (checkout request) w1)))) = 1%nat.
Proof.
  intros request w1.
  destruct (checkout_twice request request Demo.w_cart 180 eq_refl) as [Hrun Hlen];
    try discriminate; try reflexivity.
  subst w1. rewrite Hrun. split; [reflexivity|exact Hlen].
Defined.

Lemma admin_login_grants_witness :
  let w1 := snd (run (admin_login Demo.login) Demo.w0) in
  fst (run (admin_login Demo.login) Demo.w0) = redirect admin_dashboard_url /\
  Session.admin_id (World.session w1) = Some 1 /\
  exists page, fst (run (admin_dashboard Demo.get) w1) = render_template page.
Proof.
  intros w1.
  destruct (admin_login_grants Demo.login Demo.get Demo.w0 Demo.admin)
    as (Hr & Hid & _ & _ & Hdash & _); try reflexivity.
  split; [exact Hr|]. split; [exact Hid|]. apply Hdash. discriminate.
Defined.

Lemma admin_products_rejects_witness :
  let request := Demo.post [("name", "Silk Saree"); ("category", "Saree");
                            ("price", "free")] 0 in
  Db.products (World.db (snd (run (admin_products request) Demo.w_admin))) =
    Db.products Demo.db0 /\
  Session.flashes (World.session (snd (run (admin_products request) Demo.w_admin))) =
    [("danger", "Name, category & valid price required.")].
Proof.
  intros request.
  rewrite (admin_products_rejects request Demo.w_admin eq_refl eq_refl
             (or_intror (or_intror (or_introl eq_refl)))).
  split; reflexivity.
Defined.

Lemma admin_products_adds_witness :
  let r := run (admin_products (Demo.add_silk_saree 1700000000000000)) Demo.w_admin in
  map Product.slug (Db.products (World.db (snd r))) =
    ["embroidered-salwar-kameez"; "nokshi-handloom-saree"; "kantha-shawl"; "silk-saree"] /\
  map Product.id (Db.products (World.db (snd r))) = [5; 7; 9; 10].
Proof.
  intros r.
  destruct (admin_products_adds (Demo.add_silk_saree 1700000000000000) Demo.w_admin 65
              eq_refl eq_refl) as (_ & Hproducts & _);
    try discriminate; try reflexivity.
  subst r. rewrite Hproducts. split; reflexivity.
Defined.

Lemma admin_products_nan_price_witness :
  let request := Demo.post [("name", "Silk Saree"); ("category", "Saree");
                            ("price", "NaN")] 0 in
  let w := World.mk Demo.PFn (Db.mk Demo.PFn [] [] [])
             (Session.mk Demo.PFn None (Some 1) []) [] in
  let r := @run Demo.PFn (@admin_products Demo.PFn Demo.EXn request) w in
  fst r = abort 500 /\ Db.products (World.db (snd r)) = [] /\
  Session.flashes (World.session (snd r)) = [].
Proof.
  intros request w r.
  destruct (@admin_products_nan_price Demo.PFn Demo.EXn request w None eq_refl eq_refl)
    as (Hr & Hdb & Hs); try discriminate; try reflexivity.
  subst r. rewrite Hr, Hdb, Hs. repeat split.
Defined.

Lemma admin_dashboard_summary_witness :
  exists recent,
    fst (run (admin_dashboard Demo.get) Demo.w_admin) =
      render_template (admin_dashboard_html 3 0 0 recent) /\
    (List.length recent <= 5)%nat.
Proof.
  destruct (admin_dashboard_summary Demo.get Demo.w_admin eq_refl)
    as (pending & recent & Hr & Hp & _ & Hlen & _).
  exists recent. split; [|exact Hlen]. rewrite Hr, Hp. reflexivity.
Defined.

Lemma cart_key_separates_witness :
  cart_key 5 "M" <> cart_key 5 "L" /\ cart_key 5 "M" <> cart_key 7 "M".
Proof.
  split; intros H.
  - apply (proj1 (cart_key_separates 5 5 "M" "L" ltac:(lia) ltac:(lia))) in H.
    destruct H as [_ H]. discriminate H.
  - apply (proj1 (cart_key_separates 5 7 "M" "M" ltac:(lia) ltac:(lia))) in H.
    destruct H as [H _]. discriminate H.
Defined.

End Sample.
